(** * A shallow embedding of the MarkLogic management client

    The development follows two source files of the repository:
    - [python_api/marklogic/models/certificate/template.py], the certificate
      template model with its accessors, [marshal]/[unmarshal] and the
      operations that talk to the Management API;
    - [python_api/mma.py], the command line front end, whose [run] method
      sorts the tokens of a command line before handing them to a parser.

    Python dictionaries are finite maps ([gmap string value]), exceptions are
    an explicit outcome, and the HTTP server is a parameter of the
    development: every statement about an operation holds for every server. *)

From stdpp Require Import base option list gmap strings fin_maps.
From Stdlib Require Import ZArith Lia.

Open Scope Z_scope.
Open Scope string_scope.

(* ===================================================================== *)
(** * Python values, exceptions and outcomes *)
(* ===================================================================== *)

Module Py.

(** The values that travel through the two files: JSON data, [Request]
    objects (the source reads their [_config] attribute) and the objects a
    module-level name is bound to (modules, classes, functions). *)
#[warnings="-register-all"]
Inductive value : Type :=
| VNone
| VBool (b : bool)
| VInt (n : Z)
| VStr (s : string)
| VList (l : list value)
| VDict (d : gmap string value)
| VRequest (_config : value)
| VObject (name : string).

(** The exceptions the two files raise or run into.  [NotADict] is not a
    Python exception: it marks a run that left the model, because a value
    the docstrings require to be a dictionary is not one. *)
Inductive exn : Type :=
| UnexpectedManagementAPIResponse (text : string)
| ValidationError (message : string)
| KeyError (key : string)
| NameError (name : string)
| AttributeError (attr : string)
| TypeError
| ValueError
| IndexError
| SystemExit (code : Z)
| NotADict.

(** A call either returns or raises. *)
Inductive outcome (A : Type) : Type :=
| Ret (a : A)
| Raise (e : exn).
Arguments Ret {A} a.
Arguments Raise {A} e.

#[global] Instance outcome_ret : MRet outcome := @Ret.
#[global] Instance outcome_bind : MBind outcome :=
  λ A B f m, match m with Ret a => f a | Raise e => Raise e end.

Definition returns {A} (o : outcome A) : bool :=
  match o with Ret _ => true | Raise _ => false end.

(** [v is not None] *)
Definition is_not_None (v : value) : bool :=
  match v with VNone => false | _ => true end.

(** [d[k]] *)
Definition getitem (d : gmap string value) (k : string) : outcome value :=
  match d !! k with
  | Some v => Ret v
  | None => Raise (KeyError k)
  end.

(** [del d[k]] *)
Definition delitem (d : gmap string value) (k : string)
  : outcome (gmap string value) :=
  match d !! k with
  | Some _ => Ret (delete k d)
  | None => Raise (KeyError k)
  end.

(** [x in [c1, c2, ...]] on status codes *)
Definition py_in (x : Z) (l : list Z) : bool := existsb (Z.eqb x) l.

(** [a - b] *)
Definition py_sub (a b : value) : outcome value :=
  match a, b with
  | VInt x, VInt y => Ret (VInt (x - y))
  | _, _ => Raise TypeError
  end.

(** An object as [is] sees it: the identity of the object and its value. *)
Record object : Type := { id : N; val : value }.

(** [a is b] *)
Definition py_is (a b : object) : bool := (id a =? id b)%N.

(** One object has one value. *)
Definition same_object_same_value (a b : object) : Prop :=
  id a = id b → val a = val b.

End Py.

(* ===================================================================== *)
(** * marklogic.utilities.validators and marklogic.models.certificate.request *)
(* ===================================================================== *)

Module validators.
Import Py.

Inductive pytype : Type := Request_type | int_type.

(** [isinstance(v, t)] for the two classes the template passes. *)
Definition isinstance (v : value) (t : pytype) : bool :=
  match t, v with
  | Request_type, VRequest _ => true
  | int_type, VInt _ => true
  | int_type, VBool _ => true
  | _, _ => false
  end.

(** Modelled from the spec: [assert_type] of marklogic/utilities/validators.py,
    which is not among the sources.  The spec's invariant is that the embedded
    request "must be an instance of the Request type"; the template uses the
    call as an expression, so it hands the value back when the type fits and
    raises the validation error otherwise. *)
Definition assert_type (v : value) (t : pytype) : outcome value :=
  if isinstance v t then Ret v
  else Raise (ValidationError "Value is not of the expected type").

(** Modelled from the spec: [validate_custom] of
    marklogic/utilities/validators.py, which is not among the sources.
    "Validation of constrained fields (e.g., key type) raises a custom
    validation error with no recovery": the call never returns. *)
Definition validate_custom (message : string) : outcome unit :=
  Raise (ValidationError message).

End validators.

Module request.
Import Py.

(** Modelled from the spec: the [Request] class of
    marklogic/models/certificate/request.py, which is not among the sources.
    A model class "wraps a dictionary-like configuration"; template.py reads
    that configuration as the attribute [_config].  The constructor called by
    [Template.unmarshal] names one distinguished-name field. *)
Definition Request (organizationName : string) : value :=
  VRequest (VDict {[ "organizationName" := VStr organizationName ]}).

(** Modelled from the spec: [Request.unmarshal], which builds the object
    from the flat structure by taking it as the configuration. *)
Definition unmarshal (config : value) : value := VRequest config.

End request.

(* ===================================================================== *)
(** * marklogic/models/certificate/template.py *)
(* ===================================================================== *)

Module template.
Import Py validators.

(** The names bound at module level: the imports and the class.  None of
    the other names the file reads ([optoins], [ip], [addr]) is a builtin. *)
Definition module_globals : list string :=
  [ "unicode_literals"; "print_function"; "absolute_import"; "requests";
    "json"; "UnexpectedManagementAPIResponse"; "assert_type";
    "validate_custom"; "Request"; "Template" ].

(** Reading a name that is not a local of the function. *)
Definition load_global (name : string) : outcome value :=
  if bool_decide (name ∈ module_globals) then Ret (VObject name)
  else Raise (NameError name).

(** [o[k] = v]; only a dict takes a string key. *)
Definition setitem (o : value) (k : string) (v : value) : outcome value :=
  match o with
  | VDict d => Ret (VDict (<[k := v]> d))
  | _ => Raise TypeError
  end.

Record Template : Type := { _config : gmap string value; etag : value }.

(** [Template.__init__(self, name, description, cert_request,
                       key_type="rsa", key_length=None, pass_phrase=None)] *)
Definition __init__
  (name description cert_request key_type key_length pass_phrase : value)
  : outcome Template :=
  req ← assert_type cert_request Request_type;
  let config : gmap string value :=
    <["req" := req]> (<["template-description" := description]>
      (<["template-name" := name]> ∅)) in
  let config :=
    if is_not_None key_type then <["key-type" := key_type]> config
    else config in
  config ←
    (if is_not_None key_length || is_not_None pass_phrase then
       let options : gmap string value := ∅ in
       let options :=
         if is_not_None key_length then <["key-length" := key_length]> options
         else options in
       _ ← (if is_not_None pass_phrase then
              optoins ← load_global "optoins";
              setitem optoins "pass-phrase" pass_phrase
            else Ret VNone);
       Ret (<["options" := VDict options]> config)
     else Ret config);
  Ret {| _config := config; etag := VNone |}.

(** The accessors share one shape: the entry when the key is there, else
    [None]. *)
Definition field (key : string) (self : Template) : value :=
  match _config self !! key with
  | Some v => v
  | None => VNone
  end.

Definition template_id : Template → value := field "template-id".
Definition key_type : Template → value := field "key-type".
Definition options : Template → value := field "options".
Definition req : Template → value := field "req".

(** [self._config[key] = value; return self] *)
Definition set_field (key : string) (v : value) (self : Template) : Template :=
  {| _config := <[key := v]> (_config self); etag := etag self |}.

Definition set_template_name : value → Template → Template :=
  set_field "template-name".
Definition set_template_description : value → Template → Template :=
  set_field "template-description".
Definition set_options : value → Template → Template := set_field "options".

(** The literal ['rsa'] of [set_key_type] is one object of the module. *)
Definition rsa_literal : object := {| id := 0; val := VStr "rsa" |}.

(** [set_key_type]: the test is [value is not 'rsa']. *)
Definition set_key_type (v : object) (self : Template) : outcome Template :=
  _ ← (if negb (py_is v rsa_literal)
       then validate_custom "The key-type must be 'rsa'"
       else Ret ());
  Ret (set_field "key-type" (val v) self).

(** [self._config['options'][key]] when both keys are there, else [None].
    The options are "stored in a Python dictionary" ([set_options]); what
    Python does with another value there is left out as [NotADict]. *)
Definition option_field (key : string) (self : Template) : outcome value :=
  match _config self !! "options" with
  | Some (VDict o) =>
      match o !! key with
      | Some v => Ret v
      | None => Ret VNone
      end
  | Some _ => Raise NotADict
  | None => Ret VNone
  end.

Definition key_length : Template → outcome value := option_field "key-length".
Definition pass_phrase : Template → outcome value := option_field "pass-phrase".

(** [set_key_length] and [set_pass_phrase]: the options dict is taken from
    the configuration, or a new one is made, the key is set in it and it is
    stored back. *)
Definition set_option_field (key : string) (v : value) (self : Template)
  : outcome Template :=
  let options :=
    match _config self !! "options" with
    | Some o => o
    | None => VDict ∅
    end in
  options ← setitem options key v;
  Ret (set_field "options" options self).

Definition set_key_length : value → Template → outcome Template :=
  set_option_field "key-length".
Definition set_pass_phrase : value → Template → outcome Template :=
  set_option_field "pass-phrase".

Definition set_req (v : value) (self : Template) : outcome Template :=
  r ← assert_type v Request_type;
  Ret (set_field "req" r self).

(** One turn of the loop of [marshal]: [struct[key] = ...]. *)
Definition marshal_key (key : string) (v : value)
  (acc : outcome (gmap string value)) : outcome (gmap string value) :=
  struct ← acc;
  if bool_decide (key = "req") then
    match v with
    | VRequest c => Ret (<[key := c]> struct)
    | _ => Raise (AttributeError "_config")
    end
  else Ret (<[key := v]> struct).

(** [marshal]: a new dict filled key by key, in the order in which the
    finite map hands out its keys. *)
Definition marshal (self : Template) : outcome (gmap string value) :=
  map_fold marshal_key (Ret ∅) (_config self).

(** The same loop over the entries in a given order, as Python runs it over
    a dict that keeps its entries in insertion order. *)
Definition marshal_in_order (entries : list (string * value))
  : outcome (gmap string value) :=
  foldl (λ struct entry, uncurry marshal_key entry struct) (Ret ∅) entries.

(** [Template.unmarshal(config)].  The dict passed in becomes the
    configuration of the result and its ['req'] entry is rewritten in place:
    after the call the caller's dict and the result's [_config] are one
    object, whose content is the [_config] returned here. *)
Definition unmarshal (config : gmap string value) : outcome Template :=
  result ← __init__ (VStr "temp") (VStr "temp") (request.Request "temp")
                    (VStr "rsa") VNone VNone;
  let result := {| _config := config; etag := etag result |} in
  let result :=
    match _config result !! "req" with
    | Some r =>
        {| _config := <["req" := request.unmarshal r]> (_config result);
           etag := etag result |}
    | None => result
    end in
  Ret result.

(** What [marshal] builds, told at once: the configuration with the
    request under ['req'] replaced by its own configuration. *)
Definition flattened (config : gmap string value) : gmap string value :=
  match config !! "req" with
  | Some (VRequest c) => <["req" := c]> config
  | _ => config
  end.

(** The class invariant of the data model: the entry under ['req'], when
    there is one, is a [Request]. *)
Definition req_is_Request (config : gmap string value) : bool :=
  match config !! "req" with
  | Some (VRequest _) => true
  | Some _ => false
  | None => true
  end.

(** ** The connection and the HTTP exchange *)

Record Connection : Type :=
  { host : string; management_port : Z; auth : string * string }.

Inductive http_method : Type := GET | POST | PUT | DELETE.

Record http_request : Type :=
  { method : http_method;
    uri : string;
    json : option (gmap string value);
    request_auth : string * string;
    request_headers : list (string * string) }.

Record http_response : Type :=
  { status_code : Z; text : string; headers : gmap string string }.

(** What the file takes from outside: the server behind [requests] (any
    state, any answer), [json.loads] ([None] when the text is not JSON) and
    the rendering of a value by [str.format]. *)
Class Environment : Type :=
  { World : Type;
    send : http_request → World → http_response * World;
    json_loads : string → option value;
    format : value → string }.

Section operations.
Context `{env : Environment}.

(** The state a method runs in: the template it is called on, the server,
    and the requests sent so far. *)
Record state : Type :=
  { self : Template; world : World; sent : list http_request }.

(** A method body: it ends in a value or an exception, and in a state. *)
Definition action (A : Type) : Type := state → outcome A * state.

#[global] Instance action_ret : MRet action := λ A a s, (Ret a, s).
#[global] Instance action_bind : MBind action :=
  λ A B f m s,
    match m s with
    | (Ret a, s') => f a s'
    | (Raise e, s') => (Raise e, s')
    end.

Definition raise {A} (e : exn) : action A := λ s, (Raise e, s).

Definition lift {A} (o : outcome A) : action A := λ s, (o, s).

Definition get_self : action Template := λ s, (Ret (self s), s).

(** [self._config = config] *)
Definition set_config (config : gmap string value) : action unit :=
  λ s, (Ret (),
        {| self := {| _config := config; etag := etag (self s) |};
           world := world s; sent := sent s |}).

(** [requests.post], [.get], [.put], [.delete]: the request goes out and
    the server answers. *)
Definition requests (r : http_request) : action http_response :=
  λ s, let '(response, w) := send r (world s) in
       (Ret response,
        {| self := self s; world := w; sent := sent s ++ [r] |}).

Definition accept_json : list (string * string) :=
  [ ("accept", "application/json") ].

(** The arguments of one call of [requests]: [uri], [json=], [auth=] and
    [headers=]. *)
Definition call (m : http_method) (uri : string)
  (json : option (gmap string value)) (connection : Connection)
  (headers : list (string * string)) : http_request :=
  {| method := m; uri := uri; json := json;
     request_auth := auth connection; request_headers := headers |}.

(** ["http://{0}:{1}"] filled with the host and the port *)
Definition base_uri (connection : Connection) : string :=
  "http://" +:+ host connection +:+ ":" +:+
  format (VInt (management_port connection)).

(** [json.loads(response.text)] *)
Definition loads (response : http_response) : action value :=
  match json_loads (text response) with
  | Some v => mret v
  | None => raise ValueError
  end.

(** [Template.unmarshal(json.loads(response.text))]; [unmarshal] takes "a
    hash of properties". *)
Definition unmarshal_response (response : http_response) : action Template :=
  doc ← loads response;
  match doc with
  | VDict config => lift (unmarshal config)
  | _ => raise NotADict
  end.

Definition create (connection : Connection) : action Template :=
  let uri := base_uri connection +:+ "/manage/v2/certificate-templates" in
  this ← get_self;
  struct ← lift (marshal this);
  response ← requests (call POST uri (Some struct) connection []);
  if negb (py_in (status_code response) [200; 201; 204])
  then raise (UnexpectedManagementAPIResponse (text response))
  else
    location ← match headers response !! "location" with
               | Some l => mret l
               | None => raise (KeyError "location")
               end;
    let uri := base_uri connection +:+ location +:+ "/properties" in
    response ← requests (call GET uri None connection accept_json);
    _ ← (if (status_code response =? 200)%Z
         then result ← unmarshal_response response;
              set_config (_config result)
         else raise (UnexpectedManagementAPIResponse (text response)));
    get_self.

(** ["http://{0}:{1}/manage/v2/certificate-templates/{2}"] *)
Definition template_uri (connection : Connection) (this : Template) : string :=
  base_uri connection +:+ "/manage/v2/certificate-templates/" +:+
  format (template_id this).

Definition update (connection : Connection) : action Template :=
  this ← get_self;
  let uri := template_uri connection this +:+ "/properties" in
  payload ← lift (marshal this);
  payload ← lift (delitem payload "template-version");
  payload ← lift (delitem payload "template-id");
  response ← requests (call PUT uri (Some payload) connection []);
  if negb (py_in (status_code response) [200; 204])
  then raise (UnexpectedManagementAPIResponse (text response))
  else get_self.

Definition delete (connection : Connection) : action Template :=
  this ← get_self;
  let uri := template_uri connection this in
  response ← requests (call DELETE uri None connection []);
  if negb (py_in (status_code response) [200; 204])
     && negb (status_code response =? 404)%Z
  then raise (UnexpectedManagementAPIResponse (text response))
  else
    this ← get_self;
    config ← lift (delitem (_config this) "template-id");
    _ ← set_config config;
    get_self.

(** The POST of an ['operation'] payload to the template's URI. *)
Definition post_operation (connection : Connection)
  (payload : gmap string value) : action http_response :=
  this ← get_self;
  requests (call POST (template_uri connection this) (Some payload)
                     connection accept_json).

Definition generate_template_certificate_authority
  (connection : Connection) (valid_for : value) : action Template :=
  valid ← lift (assert_type valid_for int_type);
  let payload : gmap string value :=
    <["valid-for" := valid]>
      (<["operation" := VStr "generate-template-certificate-authority"]> ∅) in
  response ← post_operation connection payload;
  if negb (status_code response =? 201)%Z
  then raise (UnexpectedManagementAPIResponse (text response))
  else get_self.

Definition generate_temporary_certificate (connection : Connection)
  (valid_for common_name dns_name ip_addr : value) (if_necessary : bool)
  : action Template :=
  valid ← lift (assert_type valid_for int_type);
  let payload : gmap string value :=
    <["if-necessary" := VStr (if if_necessary then "true" else "false")]>
      (<["ip-addr" := ip_addr]> (<["dns-name" := dns_name]>
        (<["common-name" := common_name]> (<["valid-for" := valid]>
          (<["operation" := VStr "generate-temporary-certificate"]> ∅))))) in
  response ← post_operation connection payload;
  if negb (status_code response =? 201)%Z
  then raise (UnexpectedManagementAPIResponse (text response))
  else get_self.

(** The answer to a lookup: the parsed body on 200, [None] on 404. *)
Definition found_or_None (response : http_response) : action value :=
  if (status_code response =? 200)%Z then loads response
  else if (status_code response =? 404)%Z then mret VNone
  else raise (UnexpectedManagementAPIResponse (text response)).

(** [get_certificate]: the second test reads [ip-addr is not None], the
    difference of the names [ip] and [addr]. *)
Definition get_certificate (connection : Connection)
  (common_name dns_name ip_addr : value) : action value :=
  let payload : gmap string value :=
    <["common-name" := common_name]>
      (<["operation" := VStr "get-certificate"]> ∅) in
  let payload :=
    if is_not_None dns_name then <["dns-name" := dns_name]> payload
    else payload in
  ip ← lift (load_global "ip");
  addr ← lift (load_global "addr");
  difference ← lift (py_sub ip addr);
  let payload :=
    if is_not_None difference then <["ip-addr" := ip_addr]> payload
    else payload in
  response ← post_operation connection payload;
  found_or_None response.

Definition get_certificates_for_template (connection : Connection)
  : action value :=
  let payload : gmap string value :=
    <["operation" := VStr "get-certificates-for-template"]> ∅ in
  response ← post_operation connection payload;
  found_or_None response.

(** [Template.lookup(connection, tempid)], a class method: the template
    on 200, [None] on 404. *)
Definition lookup (connection : Connection) (tempid : value)
  : action (option Template) :=
  let uri := base_uri connection +:+ "/manage/v2/certificate-templates/" +:+
             format tempid +:+ "/properties" in
  response ← requests (call GET uri None connection accept_json);
  if (status_code response =? 200)%Z then
    result ← unmarshal_response response;
    mret (Some result)
  else if (status_code response =? 404)%Z then mret None
  else raise (UnexpectedManagementAPIResponse (text response)).

(** [o._config] read as a configuration. *)
Definition getattr_config (o : value) : outcome (gmap string value) :=
  match o with
  | VRequest (VDict d) => Ret d
  | VRequest _ => Raise NotADict
  | _ => Raise (AttributeError "_config")
  end.

(** [read]: the result of the lookup is bound to [temp], and the lines that
    follow read the name [auth]. *)
Definition read (connection : Connection) : action (option Template) :=
  this ← get_self;
  _ ← (if negb (is_not_None (template_id this))
       then lift (validate_custom "Cannot read an unsaved template")
       else mret ());
  this ← get_self;
  temp ← lookup connection (template_id this);
  auth ← lift (load_global "auth");
  if negb (is_not_None auth) then mret None
  else
    config ← lift (getattr_config auth);
    _ ← set_config config;
    this ← get_self;
    mret (Some this).

(** [o[key]] with a string key: only a dict has one. *)
Definition subscript (o : value) (key : string) : outcome value :=
  match o with
  | VDict d => getitem d key
  | _ => Raise TypeError
  end.

(** [for item in o]: the elements of a list, the keys of a dict, the
    characters of a string. *)
Definition iterate (o : value) : outcome (list value) :=
  match o with
  | VList l => Ret l
  | VDict d => Ret (VStr <$> (map_to_list d).*1)
  | VStr s =>
      Ret ((λ c, VStr (String c EmptyString)) <$> String.list_ascii_of_string s)
  | _ => Raise TypeError
  end.

(** One turn of the loop of [list]: [results.append(...)]. *)
Definition list_item (include_names : bool) (results : list value)
  (item : value) : outcome (list value) :=
  if include_names then
    idref ← subscript item "idref";
    nameref ← subscript item "nameref";
    Ret (results ++ [VStr (format idref +:+ "|" +:+ format nameref)])%list
  else
    idref ← subscript item "idref";
    Ret (results ++ [idref])%list.

(** [Template.list(connection, include_names=False)], a class method. *)
Definition Template_list (connection : Connection) (include_names : bool)
  : action (list value) :=
  let uri := base_uri connection +:+ "/manage/v2/certificate-templates" in
  response ← requests (call GET uri None connection accept_json);
  if negb (status_code response =? 200)%Z
  then raise (UnexpectedManagementAPIResponse (text response))
  else
    json_doc ← loads response;
    lift (default_list ← subscript json_doc "certificate-templates-default-list";
          list_items ← subscript default_list "list-items";
          items ← subscript list_items "list-item";
          items ← iterate items;
          foldl (λ results item,
                   results ← results; list_item include_names results item)
                (Ret []) items).

End operations.

End template.

(* ===================================================================== *)
(** * mma.py: the command line front end *)
(* ===================================================================== *)

Module mma.
Import Py.

(** [tok.startswith(prefix)] *)
Definition startswith (tok prefix : string) : bool := String.prefix prefix tok.

(** [sub in tok] *)
Definition contains (sub tok : string) : bool :=
  match String.index 0 sub tok with
  | Some _ => true
  | None => false
  end.

(** The locals of the first loop of [run]. *)
Record tokens : Type :=
  { options : list string;
    params : list string;
    positional : list string;
    optarg : bool }.

(** The body of [for tok in argv]. *)
Definition scan_token (st : tokens) (tok : string) : tokens :=
  if optarg st then
    {| options := options st ++ [tok]; params := params st;
       positional := positional st; optarg := false |}
  else if startswith tok "-" then
    {| options := options st ++ [tok]; params := params st;
       positional := positional st;
       optarg := if negb (tok =? "--debug") then true else optarg st |}
  else if contains "=" tok then
    {| options := options st; params := params st ++ [tok];
       positional := positional st; optarg := optarg st |}
  else
    {| options := options st; params := params st;
       positional := positional st ++ [tok]; optarg := optarg st |}.

Definition scan (argv : list string) : tokens :=
  fold_left scan_token argv
    {| options := []; params := []; positional := []; optarg := false |}.

Definition empty_artifact_commands : list string :=
  [ "start"; "status"; "stop"; "init"; "save"; "switch"; "clear"; "log" ].

Definition server_types : list string := [ "http"; "xdbc"; "odbc"; "webdav" ].

(** What [run] has in hand when it turns to the command table. *)
Record command_line : Type :=
  { command : string; artifact : option string; argv : list string }.

(** [run] from the end of the loop to the rebuilt [argv].  The usage lines
    printed before [sys.exit(1)] are left out. *)
Definition rebuild (st : tokens) : outcome command_line :=
  command ← match positional st !! 0%nat with
            | Some c => Ret c
            | None => Raise (SystemExit 1)
            end;
  artifact ← match positional st !! 1%nat with
             | Some a => Ret (Some a)
             | None =>
                 if bool_decide (command ∈ empty_artifact_commands)
                 then Ret None
                 else Raise (SystemExit 1)
             end;
  (* Hack for the server case *)
  '(artifact, positional, options) ←
    match artifact
    return outcome (option string * list string * list string) with
    | Some stype =>
        if bool_decide (stype ∈ server_types) then
          let artifact := if command =? "list" then "servers" else "server" in
          let positional := <[1%nat := artifact]> (positional st) in
          third ← match positional !! 2%nat with
                  | Some t => Ret t
                  | None => Raise IndexError
                  end;
          let positional :=
            if third =? artifact then delete 2%nat positional
            else positional in
          Ret (Some artifact, positional,
               (options st ++ ["--type"; stype])%list)
        else Ret (artifact, positional st, options st)
    | None => Ret (artifact, positional st, options st)
    end;
  (* Hack for the stop case *)
  let '(artifact, positional) :=
    match artifact return option string * list string with
    | None =>
        if command =? "stop" then (Some "host", (positional ++ ["host"])%list)
        else (artifact, positional)
    | Some _ => (artifact, positional)
    end in
  Ret {| command := command; artifact := artifact;
         argv := (options ++ positional ++ params st)%list |}.

Section dispatch.
Context {parser : Type}.

(** What a key of a command template is bound to: a parser, the code to
    call, or the table of an artifact with or without a parser of its own. *)
Inductive entry : Type :=
| a_parser (p : parser)
| a_callable
| a_table (sub_parser : option parser).

(** [self.cli.command_template]: the command template table, which lives in
    marklogic/cli/template.py and is taken as given. *)
Variable command_template : string → option (gmap string entry).

(** The choice of the parser for a command and an artifact. *)
Definition select_parser (command : string) (artifact : option string)
  : outcome parser :=
  templ ← match command_template command with
          | Some t => Ret t
          | None => Raise (SystemExit 1)
          end;
  match artifact with
  | None =>
      match templ !! "parser" with
      | Some (a_parser p) => Ret p
      | Some _ => Raise (AttributeError "parse_args")
      | None => Raise (SystemExit 1)
      end
  | Some a =>
      match templ !! a with
      | Some (a_table (Some p)) => Ret p
      | Some (a_table None) => Raise (KeyError "parser")
      | Some _ => Raise TypeError
      | None => Raise (SystemExit 1)
      end
  end.

(** [run] up to [parser.parse_args(argv)]: the parser that is called and
    the token list it is given. *)
Definition run (argv : list string) : outcome (parser * list string) :=
  line ← rebuild (scan argv);
  p ← select_parser (command line) (artifact line);
  Ret (p, mma.argv line).

End dispatch.

(** The positional words that neither hack of [run] rewrites and that
    pass the two usage tests. *)
Definition untouched (positional : list string) : Prop :=
  match positional with
  | [] => False
  | [command] => command ∈ empty_artifact_commands ∧ command ≠ "stop"
  | command :: artifact :: _ => artifact ∉ server_types
  end.

(** ** The sorting of the tokens, told token by token *)

Inductive kind : Type := an_option | a_param | a_positional.

#[global] Instance kind_eq_dec : EqDecision kind.
Proof. solve_decision. Defined.

(** A token that announces an argument: it begins with ['-'] and is not
    ['--debug']. *)
Definition announces (tok : string) : bool :=
  startswith tok "-" && negb (tok =? "--debug").

(** The kind of a token by its own text. *)
Definition own_kind (tok : string) : kind :=
  if startswith tok "-" then an_option
  else if contains "=" tok then a_param
  else a_positional.

(** The sorting as the specification words it: a token is an option when it
    begins with ['-'] or when the token before it announces an argument.
    [after] tells whether the token before the list announces one. *)
Fixpoint stated_kinds (after : bool) (argv : list string) : list kind :=
  match argv with
  | [] => []
  | tok :: rest =>
      (if after then an_option else own_kind tok)
      :: stated_kinds (announces tok) rest
  end.

(** The sorting with one more condition: a token that was itself taken as
    an argument announces nothing. *)
Fixpoint kinds (after : bool) (argv : list string) : list kind :=
  match argv with
  | [] => []
  | tok :: rest =>
      if after then an_option :: kinds false rest
      else own_kind tok :: kinds (announces tok) rest
  end.

(** The tokens of one kind, in the order of the command line. *)
Fixpoint select (k : kind) (ks : list kind) (argv : list string)
  : list string :=
  match ks, argv with
  | k' :: ks, tok :: rest =>
      if bool_decide (k' = k) then tok :: select k ks rest
      else select k ks rest
  | _, _ => []
  end.

(** A command line as its author thinks of it: flags with their argument,
    ['--debug'], parameters and positional words. *)
Inductive word : Type :=
| flag (name argument : string)
| debug
| param (text : string)
| plain (text : string).

Definition well_formed (w : word) : bool :=
  match w with
  | flag name _ => announces name
  | debug => true
  | param text => negb (startswith text "-") && contains "=" text
  | plain text => negb (startswith text "-") && negb (contains "=" text)
  end.

Definition spell (w : word) : list string :=
  match w with
  | flag name argument => [name; argument]
  | debug => ["--debug"]
  | param text => [text]
  | plain text => [text]
  end.

Definition word_kind (w : word) : kind :=
  match w with
  | flag _ _ => an_option
  | debug => an_option
  | param _ => a_param
  | plain _ => a_positional
  end.

(** The tokens of a word when the word is of the kind asked for. *)
Definition own_tokens (k : kind) (w : word) : list string :=
  if decide (word_kind w = k) then spell w else [].

(** The tokens of the words of one kind, in order. *)
Definition tokens_of (k : kind) (ws : list word) : list string :=
  concat (map spell (filter (λ w, word_kind w = k) ws)).

End mma.

(* ===================================================================== *)
(** * Concrete runs *)
(* ===================================================================== *)

Module examples.
Import Py validators template.

(** A server that answers from a script, whatever it is asked, and answers
    500 once the script is over. *)
Definition scripted (w : list http_response) : http_response * list http_response :=
  match w with
  | response :: rest => (response, rest)
  | [] => ({| status_code := 500; text := "script over"; headers := ∅ |}, [])
  end.

Definition dq : string := String (Ascii.ascii_of_nat 34) EmptyString.

(** The properties document of the examples: [{"template-id": 7}]. *)
Definition properties_text : string :=
  "{" +:+ dq +:+ "template-id" +:+ dq +:+ ": 7}".

(** A decoder that knows the documents of the examples. *)
Definition decode (text : string) : option value :=
  if text =? properties_text
  then Some (VDict (<["template-id" := VInt 7]> ∅))
  else if text =? "{}" then Some (VDict ∅)
  else None.

(** [str.format] on the values the examples put into a URI. *)
Definition render (v : value) : string :=
  match v with
  | VNone => "None"
  | VStr s => s
  | VInt 7 => "7"
  | VInt 8002 => "8002"
  | _ => "?"
  end.

#[local] Instance script_environment : Environment :=
  {| World := list http_response;
     send := λ _ w, scripted w;
     json_loads := decode;
     format := render |}.

Definition localhost : Connection :=
  {| host := "localhost"; management_port := 8002;
     auth := ("admin", "admin") |}.

Definition location7 : string := "/manage/v2/certificate-templates/7".

Definition answer (status : Z) (body : string) : http_response :=
  {| status_code := status; text := body; headers := ∅ |}.

Definition created (location : string) : http_response :=
  {| status_code := 201; text := "";
     headers := <["location" := location]> ∅ |}.

(** A template as the constructor leaves it, without options. *)
Definition unsaved : Template :=
  {| _config :=
       <["key-type" := VStr "rsa"]> (<["req" := request.Request "Example Corp"]>
         (<["template-description" := VStr "a template"]>
           (<["template-name" := VStr "example"]> ∅)));
     etag := VNone |}.

(** The same template with the fields a server assigns. *)
Definition saved : Template :=
  {| _config :=
       <["template-version" := VInt 0]> (<["template-id" := VInt 7]>
         (_config unsaved));
     etag := VNone |}.

Definition start (this : Template) (script : list http_response) : state :=
  {| self := this; world := script; sent := [] |}.

(** The runs the properties are tried on. *)
Definition create_run : state :=
  start unsaved [created location7; answer 200 properties_text].
Definition create_run_refused : state :=
  start unsaved [created location7; answer 500 properties_text].
Definition update_run : state := start saved [answer 204 ""].
Definition update_run_unsaved : state := start unsaved [answer 200 ""].
Definition delete_run : state := start saved [answer 404 ""].
Definition delete_run_unsaved : state := start unsaved [answer 404 ""].
Definition authority_run : state := start saved [answer 201 ""].
Definition authority_run_200 : state := start saved [answer 200 "done"].

(** A string equal to ['rsa'] that is not the literal of the module, such
    as the result of [''.join(['r', 's', 'a'])]. *)
Definition joined_rsa : object := {| id := 1; val := VStr "rsa" |}.

(** A command table with one command, [list databases]; a parser is known
    by its name. *)
Definition one_command (command : string)
  : option (gmap string (@mma.entry string)) :=
  if command =? "list"
  then Some (<["databases" := mma.a_table (Some "list databases")]> ∅)
  else None.

(** [list databases] with a flag, ['--debug'] and a parameter, written in
    two orders. *)
Definition words_one : list mma.word :=
  [ mma.plain "list"; mma.debug; mma.plain "databases";
    mma.param "name=Documents"; mma.flag "--hostname" "localhost" ].

Definition words_two : list mma.word :=
  [ mma.debug; mma.flag "--hostname" "localhost"; mma.param "name=Documents";
    mma.plain "list"; mma.plain "databases" ].

End examples.

(* ===================================================================== *)
(** * The behaviour as the specification states it *)
(* ===================================================================== *)

(** Four sentences of the specification promise more than the code does.
    They are written down here as they stand, to be compared with the code
    at a concrete run. *)

Module stated.
Import Py validators template.

Section operations.
Context `{env : Environment}.

(** The state after one more exchange with the server. *)
Definition exchanged (s : state) (after : Template) (w : World)
  (rs : list http_request) : state :=
  {| self := after; world := w; sent := sent s ++ rs |}.

Definition create_post (connection : Connection)
  (struct : gmap string value) : http_request :=
  call POST (base_uri connection +:+ "/manage/v2/certificate-templates")
       (Some struct) connection [].

Definition create_get (connection : Connection) (location : string)
  : http_request :=
  call GET (base_uri connection +:+ location +:+ "/properties") None
       connection accept_json.

(** [create]: whenever the POST succeeds, the properties are fetched again
    and the unmarshaled answer becomes the configuration; otherwise the
    error is raised and the configuration stays. *)
Definition create_as_stated (connection : Connection) (s : state) : Prop :=
  ∀ struct post w,
    marshal (self s) = Ret struct →
    send (create_post connection struct) (world s) = (post, w) →
    if py_in (status_code post) [200; 201; 204] then
      ∀ location get w' config,
        headers post !! "location" = Some location →
        send (create_get connection location) w = (get, w') →
        json_loads (text get) = Some (VDict config) →
        ∃ result,
          unmarshal config = Ret result
          ∧ let after := {| _config := _config result;
                            etag := etag (self s) |} in
            create connection s =
            (Ret after,
             exchanged s after w'
               [create_post connection struct;
                create_get connection location])
    else
      create connection s =
      (Raise (UnexpectedManagementAPIResponse (text post)),
       exchanged s (self s) w [create_post connection struct]).

(** What [update] sends for a template: the flat structure without the two
    fields the server assigns, in a PUT to the properties of the template. *)
Definition update_payload (this : Template) : gmap string value :=
  base.delete "template-id"
    (base.delete "template-version" (flattened (_config this))).

Definition update_request (connection : Connection) (this : Template)
  : http_request :=
  call PUT (template_uri connection this +:+ "/properties")
       (Some (update_payload this)) connection [].

Definition delete_request (connection : Connection) (this : Template)
  : http_request :=
  call DELETE (template_uri connection this) None connection [].

(** [delete]: on 200, 204 and 404 the call returns and the template has no
    id afterwards; otherwise the error is raised. *)
Definition delete_as_stated (connection : Connection) (s : state) : Prop :=
  ∀ response w,
    send (delete_request connection (self s)) (world s) = (response, w) →
    if py_in (status_code response) [200; 204; 404] then
      ∃ after,
        delete connection s =
        (Ret after,
         exchanged s after w [delete_request connection (self s)])
        ∧ template_id after = VNone
    else
      delete connection s =
      (Raise (UnexpectedManagementAPIResponse (text response)),
       exchanged s (self s) w [delete_request connection (self s)]).

Definition operation_request (connection : Connection) (this : Template)
  (payload : gmap string value) : http_request :=
  call POST (template_uri connection this) (Some payload) connection
       accept_json.

(** An operation that returns the template: 200, 201 and 204 are success,
    any other status raises the error with the body. *)
Definition operation_as_stated (operation : action Template)
  (payload : gmap string value) (connection : Connection) (s : state)
  : Prop :=
  ∀ response w,
    send (operation_request connection (self s) payload) (world s)
      = (response, w) →
    operation s =
    (if py_in (status_code response) [200; 201; 204]
     then Ret (self s)
     else Raise (UnexpectedManagementAPIResponse (text response)),
     exchanged s (self s) w
       [operation_request connection (self s) payload]).

Definition authority_payload (valid_for : value) : gmap string value :=
  <["valid-for" := valid_for]>
    (<["operation" := VStr "generate-template-certificate-authority"]> ∅).

Definition temporary_payload
  (valid_for common_name dns_name ip_addr : value) (if_necessary : bool)
  : gmap string value :=
  <["if-necessary" := VStr (if if_necessary then "true" else "false")]>
    (<["ip-addr" := ip_addr]> (<["dns-name" := dns_name]>
      (<["common-name" := common_name]> (<["valid-for" := valid_for]>
        (<["operation" := VStr "generate-temporary-certificate"]> ∅))))).

Definition list_payload : gmap string value :=
  <["operation" := VStr "get-certificates-for-template"]> ∅.

End operations.

(** [run]: a token is an option when it begins with ['-'] or comes right
    after such a token other than ['--debug']. *)
Definition sorting_as_stated (argv : list string) : Prop :=
  let st := mma.scan argv in
  let ks := mma.stated_kinds false argv in
  mma.options st = mma.select mma.an_option ks argv
  ∧ mma.positional st = mma.select mma.a_positional ks argv
  ∧ mma.params st = mma.select mma.a_param ks argv.

End stated.

(* ===================================================================== *)
(** * The requests of the class methods, and well-formed options *)
(* ===================================================================== *)

Module wire.
Import Py validators template.

Section requests.
Context `{env : Environment}.

Definition lookup_request (connection : Connection) (tempid : value)
  : http_request :=
  call GET (base_uri connection +:+ "/manage/v2/certificate-templates/" +:+
            format tempid +:+ "/properties") None connection accept_json.


(** A method that leaves the template as it is and sends one request at
    most. *)
Definition reads_only {A} (m : action A) : Prop :=
  ∀ s, self (snd (m s)) = self s
       ∧ (sent (snd (m s)) = sent s
          ∨ ∃ r, sent (snd (m s)) = (sent s ++ [r])%list).

End requests.

(** The options of a template are absent or a dictionary. *)
Definition options_are_dict (this : Template) : bool :=
  match _config this !! "options" with
  | Some (VDict _) => true
  | Some _ => false
  | None => true
  end.

(** The answer of the server to [list]: a document with the given items. *)
Definition listing (items : list value) : value :=
  VDict (<["certificate-templates-default-list" :=
           VDict (<["list-items" :=
                    VDict (<["list-item" := VList items]> ∅)]> ∅)]> ∅).

(** An item of a listing with an id and a name. *)
Definition list_entry (idref nameref : value) : value :=
  VDict (<["nameref" := nameref]> (<["idref" := idref]> ∅)).

End wire.

(* ===================================================================== *)
(** * More concrete runs *)
(* ===================================================================== *)

Module more_examples.
Import Py validators template examples wire.

(** The properties of a saved template: [{"template-id": 7,
    "template-version": 0}]. *)
Definition full_properties_text : string :=
  "{" +:+ dq +:+ "template-id" +:+ dq +:+ ": 7, " +:+
  dq +:+ "template-version" +:+ dq +:+ ": 0}".

Definition full_properties : gmap string value :=
  <["template-version" := VInt 0]> (<["template-id" := VInt 7]> ∅).

(** A listing with one template. *)
Definition listing_text : string :=
  "{" +:+ dq +:+ "certificate-templates-default-list" +:+ dq +:+ ": {" +:+
  dq +:+ "list-items" +:+ dq +:+ ": {" +:+ dq +:+ "list-item" +:+ dq +:+
  ": [{" +:+ dq +:+ "idref" +:+ dq +:+ ": 7, " +:+ dq +:+ "nameref" +:+ dq +:+
  ": " +:+ dq +:+ "example" +:+ dq +:+ "}]}}}".

Definition listed : list (gmap string value) :=
  [ <["nameref" := VStr "example"]> (<["idref" := VInt 7]> ∅) ].

(** A decoder that knows these two documents as well. *)
Definition decode_more (text : string) : option value :=
  if text =? full_properties_text then Some (VDict full_properties)
  else if text =? listing_text then Some (listing (VDict <$> listed))
  else decode text.

#[local] Instance second_environment : Environment :=
  {| World := list http_response;
     send := λ _ w, scripted w;
     json_loads := decode_more;
     format := render |}.

Definition begin (this : Template) (script : list http_response) : state :=
  {| self := this; world := script; sent := [] |}.

(** A template as [lookup] hands it back. *)
Definition fetched : Template :=
  {| _config := full_properties; etag := VNone |}.

Definition lookup_run : state := begin unsaved [answer 200 full_properties_text].
Definition read_run : state := begin saved [answer 404 ""].
Definition create_run_no_location : state := begin unsaved [answer 201 ""].
Definition update_run_fetched : state := begin fetched [answer 200 ""].
Definition delete_twice_run : state :=
  begin saved [answer 204 ""; answer 404 ""].

(** The saved template after a [delete] that returned, and the state that
    [delete_twice_run] is in by then. *)
Definition deleted : Template :=
  {| _config := base.delete "template-id" (_config saved); etag := VNone |}.

Definition after_first_delete : state :=
  {| self := deleted; world := [answer 404 ""];
     sent := [call DELETE (template_uri localhost saved) None localhost []] |}.

(** The entries of the configuration of [saved], in a possible insertion
    order. *)
Definition saved_entries : list (string * value) :=
  [ ("template-name", VStr "example");
    ("template-description", VStr "a template");
    ("req", request.Request "Example Corp");
    ("key-type", VStr "rsa");
    ("template-id", VInt 7);
    ("template-version", VInt 0) ].

End more_examples.

(* ===================================================================== *)
(** * Properties of the template model *)
(* ===================================================================== *)

Module template_properties.
Import Py validators template stated.

(** ** [marshal] and [unmarshal] *)

Lemma req_is_Request_insert_other (config : gmap string value) key v :
  key ≠ "req" →
  req_is_Request (<[key := v]> config) = req_is_Request config.
Proof.
  intros Hne. unfold req_is_Request. by rewrite lookup_insert_ne.
Qed.

Lemma flattened_insert_other (config : gmap string value) key v :
  key ≠ "req" →
  flattened (<[key := v]> config) = <[key := v]> (flattened config).
Proof.
  intros Hne. unfold flattened. rewrite lookup_insert_ne by done.
  destruct (config !! "req") as [[]|]; try done.
  by apply insert_insert_ne.
Qed.

(** The loop of [marshal] ends without an exception on a configuration that
    keeps the class invariant, and what it has built is [flattened]. *)
Lemma marshal_flattens (this : Template) :
  req_is_Request (_config this) = true →
  marshal this = Ret (flattened (_config this)).
Proof.
  unfold marshal. generalize (_config this). clear this.
  apply (map_fold_weak_ind
           (λ r m, req_is_Request m = true → r = Ret (flattened m))).
  - done.
  - intros key v m r Hfresh IH Hreq.
    destruct (decide (key = "req")) as [->|Hne].
    + unfold req_is_Request in Hreq. rewrite lookup_insert_eq in Hreq.
      rewrite IH by (unfold req_is_Request; by rewrite Hfresh).
      unfold flattened. rewrite Hfresh, lookup_insert_eq.
      destruct v; try done. simpl.
      by rewrite insert_insert_eq.
    + rewrite req_is_Request_insert_other in Hreq by done.
      rewrite (IH Hreq), flattened_insert_other by done.
      unfold marshal_key. simpl. by rewrite bool_decide_eq_false_2.
Qed.

(** Two turns of the loop on different keys can be swapped. *)
Lemma marshal_key_swap key1 v1 key2 v2 acc :
  key1 ≠ key2 →
  marshal_key key1 v1 (marshal_key key2 v2 acc)
  = marshal_key key2 v2 (marshal_key key1 v1 acc).
Proof.
  intros Hne. destruct acc as [struct|e]; [|done].
  unfold marshal_key.
  destruct (decide (key1 = "req")) as [->|Hne1],
           (decide (key2 = "req")) as [->|Hne2]; [done| | |].
  - rewrite (bool_decide_eq_false_2 (key2 = "req")) by done. simpl.
    destruct v1; simpl; try done. by rewrite insert_insert_ne.
  - rewrite (bool_decide_eq_false_2 (key1 = "req")) by done. simpl.
    destruct v2; simpl; try done. by rewrite insert_insert_ne.
  - rewrite (bool_decide_eq_false_2 (key1 = "req")),
      (bool_decide_eq_false_2 (key2 = "req")) by done.
    simpl. by rewrite insert_insert_ne.
Qed.

Lemma foldl_as_foldr {A B} (f : A → B → A) (a : A) (l : list B) :
  foldl f a l = foldr (λ x acc, f acc x) a (reverse l).
Proof.
  induction l as [|x l IH] using rev_ind; [done|].
  by rewrite foldl_snoc, reverse_snoc, IH.
Qed.

(** The order of the entries does not matter to the loop: run in the
    insertion order of a dict, it gives what [marshal] gives on the finite
    map of the same entries. *)
Lemma marshal_order_irrelevant (entries : list (string * value)) e :
  NoDup entries.*1 →
  marshal_in_order entries
  = marshal {| _config := list_to_map entries; etag := e |}.
Proof.
  intros Hkeys. unfold marshal, marshal_in_order. simpl.
  rewrite map_fold_foldr, foldl_as_foldr.
  apply (foldr_permutation (=) (uncurry marshal_key)).
  - solve_proper.
  - intros i [key1 v1] j [key2 v2] acc Hij Hi Hj. simpl.
    apply marshal_key_swap. intros ->. apply Hij.
    assert (NoDup (reverse entries).*1) as Hrev
      by (by rewrite fmap_reverse, reverse_Permutation).
    apply (NoDup_lookup _ i j key2 Hrev);
      rewrite list_lookup_fmap; [by rewrite Hi|by rewrite Hj].
  - rewrite reverse_Permutation. symmetry. by apply map_to_list_to_map.
Qed.

(** Without the invariant the loop stops at the ['req'] entry. *)
Lemma marshal_needs_Request (this : Template) :
  req_is_Request (_config this) = false →
  marshal this = Raise (AttributeError "_config").
Proof.
  unfold marshal. generalize (_config this). clear this.
  apply (map_fold_weak_ind
           (λ r m, (req_is_Request m = true → r = Ret (flattened m)) ∧
                   (req_is_Request m = false
                    → r = Raise (AttributeError "_config")))).
  - done.
  - intros key v m r Hfresh [IHok IHbad].
    destruct (decide (key = "req")) as [->|Hne].
    + assert (req_is_Request m = true) as Hm
        by (unfold req_is_Request; by rewrite Hfresh).
      rewrite (IHok Hm). unfold req_is_Request, flattened.
      rewrite Hfresh, lookup_insert_eq.
      split; intros Hv; destruct v; try done; simpl.
      by rewrite insert_insert_eq.
    + rewrite req_is_Request_insert_other by done.
      split; intros Hreq.
      * rewrite (IHok Hreq), flattened_insert_other by done.
        unfold marshal_key. simpl. by rewrite bool_decide_eq_false_2.
      * by rewrite (IHbad Hreq).
Qed.

Lemma unmarshal_wraps (config : gmap string value) :
  unmarshal config =
  Ret {| _config := match config !! "req" with
                    | Some r => <["req" := VRequest r]> config
                    | None => config
                    end;
         etag := VNone |}.
Proof.
  unfold unmarshal. simpl. by destruct (config !! "req").
Qed.

Lemma unmarshal_keeps_invariant (config : gmap string value) this :
  unmarshal config = Ret this → req_is_Request (_config this) = true.
Proof.
  rewrite unmarshal_wraps. intros [= <-]. simpl. unfold req_is_Request.
  destruct (config !! "req") eqn:Hreq.
  - by rewrite lookup_insert_eq.
  - by rewrite Hreq.
Qed.

(** C9. A template that holds a [Request] under ['req'] marshals to a flat
    structure [struct] in which ['req'] is the request's own configuration
    and every other key is copied; [unmarshal] of that structure wraps the
    ['req'] entry again and leaves the other keys, which gives back the
    configuration of the template; and the result marshals to [struct]. *)
Theorem marshal_unmarshal_round_trip (this : Template) (c : value) :
  _config this !! "req" = Some (VRequest c) →
  ∃ struct back,
    marshal this = Ret struct
    ∧ struct !! "req" = Some c
    ∧ (∀ key, key ≠ "req" → struct !! key = _config this !! key)
    ∧ unmarshal struct = Ret back
    ∧ _config back !! "req" = Some (VRequest c)
    ∧ (∀ key, key ≠ "req" → _config back !! key = struct !! key)
    ∧ _config back = _config this
    ∧ marshal back = Ret struct.
Proof.
  intros Hreq.
  assert (req_is_Request (_config this) = true) as Hinv
    by (unfold req_is_Request; by rewrite Hreq).
  assert (flattened (_config this) = <["req" := c]> (_config this)) as Hflat
    by (unfold flattened; by rewrite Hreq).
  exists (<["req" := c]> (_config this)).
  exists {| _config := _config this; etag := VNone |}.
  rewrite marshal_flattens, Hflat by done.
  rewrite unmarshal_wraps, lookup_insert_eq, insert_insert_eq.
  rewrite (insert_id (_config this) "req" (VRequest c)) by done.
  rewrite marshal_flattens by done. simpl. rewrite Hflat.
  repeat split; try done; intros key Hne; by rewrite lookup_insert_ne.
Qed.

(** ** The constructor and the setters *)

Lemma init_without_pass_phrase name description c key_type key_length this :
  __init__ name description (VRequest c) key_type key_length VNone = Ret this →
  req_is_Request (_config this) = true.
Proof.
  unfold __init__. simpl.
  destruct (is_not_None key_type), (is_not_None key_length); simpl;
    intros [= <-]; unfold req_is_Request; simpl;
    by repeat (rewrite lookup_insert_ne by done); rewrite lookup_insert_eq.
Qed.

(** The setters keep the class invariant. *)

Lemma set_field_keeps_invariant key v (this : Template) :
  key ≠ "req" →
  req_is_Request (_config (set_field key v this))
  = req_is_Request (_config this).
Proof. intros Hne. by apply req_is_Request_insert_other. Qed.

Lemma set_req_keeps_invariant v (this after : Template) :
  set_req v this = Ret after → req_is_Request (_config after) = true.
Proof.
  unfold set_req, assert_type.
  destruct v; simpl; try done. intros [= <-].
  unfold req_is_Request. simpl. by rewrite lookup_insert_eq.
Qed.

Lemma set_key_type_keeps_invariant v (this after : Template) :
  set_key_type v this = Ret after →
  req_is_Request (_config after) = req_is_Request (_config this).
Proof.
  unfold set_key_type. destruct (negb (py_is v rsa_literal)); [done|].
  simpl. intros [= <-]. by apply set_field_keeps_invariant.
Qed.

Lemma set_option_field_keeps_invariant key v (this after : Template) :
  set_option_field key v this = Ret after →
  req_is_Request (_config after) = req_is_Request (_config this).
Proof.
  unfold set_option_field.
  destruct (setitem _ key v) as [o|e]; [|done].
  simpl. intros [= <-]. by apply set_field_keeps_invariant.
Qed.

(** Whatever else is passed, a pass phrase other than [None] sends the
    constructor into the assignment to the unbound name [optoins]. *)
Lemma init_pass_phrase_NameError
  name description cert_request key_type key_length p :
  isinstance cert_request Request_type = true →
  is_not_None p = true →
  __init__ name description cert_request key_type key_length p
  = Raise (NameError "optoins").
Proof.
  intros Htype Hp. unfold __init__, assert_type. rewrite Htype, Hp. simpl.
  by rewrite orb_true_r.
Qed.

(** C6. The constructor called with a request and the pass phrase
    ['secret'] does not build a template: it raises [NameError] for the name
    [optoins], with a key length and without one. *)
Theorem init_with_pass_phrase_fails :
  __init__ (VStr "example") (VStr "a template")
           (request.Request "Example Corp") (VStr "rsa") VNone (VStr "secret")
  = Raise (NameError "optoins")
  ∧ __init__ (VStr "example") (VStr "a template")
             (request.Request "Example Corp") (VStr "rsa") (VInt 2048)
             (VStr "secret")
    = Raise (NameError "optoins").
Proof. split; by apply init_pass_phrase_NameError. Qed.

(** A string other than ['rsa'] is refused, as is every value that is not
    the literal itself. *)
Lemma set_key_type_refuses (v : object) (this : Template) :
  same_object_same_value v rsa_literal →
  val v ≠ VStr "rsa" →
  set_key_type v this = Raise (ValidationError "The key-type must be 'rsa'").
Proof.
  intros Hsame Hval. unfold set_key_type, py_is.
  destruct (N.eqb_spec (id v) (id rsa_literal)) as [Hid|Hid]; [|done].
  by destruct Hval; apply Hsame.
Qed.

(** After a call that returns, the key type is ['rsa']. *)
Lemma set_key_type_returns_rsa (v : object) (this after : Template) :
  same_object_same_value v rsa_literal →
  set_key_type v this = Ret after →
  key_type after = VStr "rsa".
Proof.
  intros Hsame. unfold set_key_type, py_is.
  destruct (N.eqb_spec (id v) (id rsa_literal)) as [Hid|Hid]; [|done].
  simpl. intros [= <-]. rewrite (Hsame Hid).
  unfold key_type, field, set_field. simpl. by rewrite lookup_insert_eq.
Qed.

(** The literal itself is accepted. *)
Lemma set_key_type_accepts_literal (this : Template) :
  set_key_type rsa_literal this
  = Ret (set_field "key-type" (VStr "rsa") this).
Proof. reflexivity. Qed.

(** C5. A string that equals ['rsa'] without being the literal object of
    the module is refused with the validation error: the test of
    [set_key_type] compares identities, not values. *)
Theorem set_key_type_refuses_equal_string :
  val examples.joined_rsa = VStr "rsa"
  ∧ set_key_type examples.joined_rsa examples.saved
    = Raise (ValidationError "The key-type must be 'rsa'").
Proof. split; reflexivity. Qed.

(** ** The operations *)

Section operations.
Context `{env : Environment}.

(** The equations of the method bodies, one per kind of statement. *)

Lemma bind_get_self {B} (k : Template → action B) (s : state) :
  (get_self ≫= k) s = k (self s) s.
Proof. reflexivity. Qed.

Lemma bind_lift_Ret {A B} (a : A) (k : A → action B) (s : state) :
  (lift (Ret a) ≫= k) s = k a s.
Proof. reflexivity. Qed.

Lemma bind_lift_Raise {A B} (e : exn) (k : A → action B) (s : state) :
  (lift (Raise e) ≫= k) s = (Raise e, s).
Proof. reflexivity. Qed.

Lemma bind_mret {A B} (a : A) (k : A → action B) (s : state) :
  (mret a ≫= k) s = k a s.
Proof. reflexivity. Qed.

Lemma bind_raise {A B} (e : exn) (k : A → action B) (s : state) :
  (raise e ≫= k) s = (Raise e, s).
Proof. reflexivity. Qed.

Lemma bind_set_config {B} config (k : unit → action B) (s : state) :
  (set_config config ≫= k) s
  = k () {| self := {| _config := config; etag := etag (self s) |};
            world := world s; sent := sent s |}.
Proof. reflexivity. Qed.

Lemma bind_requests {B} (r : http_request) (k : http_response → action B)
  (s : state) response w :
  send r (world s) = (response, w) →
  (requests r ≫= k) s = k response (exchanged s (self s) w [r]).
Proof.
  intros Hsend. unfold mbind, action_bind, requests. by rewrite Hsend.
Qed.

Lemma bind_bind {A B C} (m : action A) (f : A → action B)
  (g : B → action C) (s : state) :
  ((m ≫= f) ≫= g) s = (m ≫= λ a, f a ≫= g) s.
Proof.
  unfold mbind, action_bind. by destruct (m s) as [[a|e] s'].
Qed.

Lemma delitem_present (d : gmap string value) key v :
  d !! key = Some v → delitem d key = Ret (base.delete key d).
Proof. intros Hkey. unfold delitem. by rewrite Hkey. Qed.

Lemma delitem_absent (d : gmap string value) key :
  d !! key = None → delitem d key = Raise (KeyError key).
Proof. intros Hkey. unfold delitem. by rewrite Hkey. Qed.

Lemma flattened_lookup_other (config : gmap string value) key :
  key ≠ "req" → flattened config !! key = config !! key.
Proof.
  intros Hne. unfold flattened.
  destruct (config !! "req") as [[]|]; try done.
  by rewrite lookup_insert_ne.
Qed.

(** C2. Every call of [get_certificate], whatever its arguments and
    whatever the server would answer, raises [NameError] for the name [ip]
    before anything is sent: the state, and with it the list of requests,
    is as before. *)
Theorem get_certificate_raises_NameError (connection : Connection)
  (common_name dns_name ip_addr : value) (s : state) :
  get_certificate connection common_name dns_name ip_addr s
  = (Raise (NameError "ip"), s).
Proof. reflexivity. Qed.

(** C10. [update] on a template that lacks ['template-id'] or
    ['template-version'] raises [KeyError] for a key it lacks, not the
    validation error, and the state is as before: no request was sent. *)
Theorem update_unsaved_raises_KeyError (connection : Connection) (s : state) :
  req_is_Request (_config (self s)) = true →
  _config (self s) !! "template-id" = None
  ∨ _config (self s) !! "template-version" = None →
  ∃ key,
    (key = "template-id" ∨ key = "template-version")
    ∧ _config (self s) !! key = None
    ∧ update connection s = (Raise (KeyError key), s).
Proof.
  intros Hinv Hlacks. unfold update.
  rewrite bind_get_self, (marshal_flattens _ Hinv), bind_lift_Ret.
  destruct (_config (self s) !! "template-version") as [version|] eqn:Hversion.
  - destruct Hlacks as [Hid|?]; [|done].
    exists "template-id". repeat split; [by left|done|].
    rewrite (delitem_present _ _ version), bind_lift_Ret
      by by rewrite flattened_lookup_other.
    rewrite delitem_absent; [done|].
    rewrite lookup_delete_ne by done. by rewrite flattened_lookup_other.
  - exists "template-version". repeat split; [by right|done|].
    rewrite delitem_absent; [done|]. by rewrite flattened_lookup_other.
Qed.

(** C3. [update] on a template that has both server-assigned fields sends
    one PUT; its payload is the marshaled configuration without
    ['template-id'] and ['template-version'] and with every other key; the
    template is the same after the call; 200 and 204 return it, any other
    status raises the error with the body of the answer. *)
Theorem update_sends_mutable_fields (connection : Connection) (s : state)
  (id version : value) (response : http_response) (w : World) :
  req_is_Request (_config (self s)) = true →
  _config (self s) !! "template-id" = Some id →
  _config (self s) !! "template-version" = Some version →
  send (update_request connection (self s)) (world s) = (response, w) →
  marshal (self s) = Ret (flattened (_config (self s)))
  ∧ update_payload (self s) !! "template-id" = None
  ∧ update_payload (self s) !! "template-version" = None
  ∧ (∀ key, key ≠ "template-id" → key ≠ "template-version" →
            update_payload (self s) !! key
            = flattened (_config (self s)) !! key)
  ∧ (status_code response = 200 ∨ status_code response = 204 →
     update connection s
     = (Ret (self s),
        exchanged s (self s) w [update_request connection (self s)]))
  ∧ (status_code response ≠ 200 → status_code response ≠ 204 →
     update connection s
     = (Raise (UnexpectedManagementAPIResponse (text response)),
        exchanged s (self s) w [update_request connection (self s)])).
Proof.
  intros Hinv Hid Hversion Hsend.
  assert (update connection s =
          (if negb (py_in (status_code response) [200; 204])
           then Raise (UnexpectedManagementAPIResponse (text response))
           else Ret (self s),
           exchanged s (self s) w [update_request connection (self s)]))
    as Hupdate.
  { unfold update.
    rewrite bind_get_self, (marshal_flattens _ Hinv), bind_lift_Ret.
    rewrite (delitem_present _ _ version), bind_lift_Ret
      by by rewrite flattened_lookup_other.
    rewrite (delitem_present _ _ id), bind_lift_Ret
      by (rewrite lookup_delete_ne by done; by rewrite flattened_lookup_other).
    unfold update_request, update_payload in Hsend.
    rewrite (bind_requests _ _ _ _ _ Hsend).
    by destruct (py_in (status_code response) [200; 204]). }
  split; [by apply marshal_flattens|].
  split; [by apply lookup_delete_eq|].
  split; [unfold update_payload; rewrite lookup_delete_ne by done;
          by apply lookup_delete_eq|].
  split; [intros key Hne1 Hne2; unfold update_payload;
          by rewrite !lookup_delete_ne|].
  rewrite Hupdate. unfold py_in. simpl. split.
  - intros [->| ->]; reflexivity.
  - intros Hne1 Hne2.
    destruct (Z.eqb_spec (status_code response) 200) as [?|_]; [done|].
    by destruct (Z.eqb_spec (status_code response) 204) as [?|_].
Qed.

Lemma unmarshal_lookup_other (config : gmap string value) result key :
  unmarshal config = Ret result → key ≠ "req" →
  _config result !! key = config !! key.
Proof.
  rewrite unmarshal_wraps. intros [= <-] Hne. simpl.
  destruct (config !! "req"); [|done]. by rewrite lookup_insert_ne.
Qed.

(** C1, as the code has it.  After a POST that succeeds and names a
    location, [create] fetches [location/properties]; when that answer has
    status 200 and is a JSON object, the unmarshaled object becomes the
    configuration, so the id and the version are the server's; when it has
    another status, [create] raises the error with the body of that answer
    and the configuration stays.  After a POST that does not succeed,
    [create] raises the error with its body and the configuration stays. *)
Theorem create_refreshes_on_200 (connection : Connection) (s : state)
  (struct : gmap string value) (post : http_response) (w : World) :
  marshal (self s) = Ret struct →
  send (create_post connection struct) (world s) = (post, w) →
  if py_in (status_code post) [200; 201; 204] then
    ∀ location get w',
      headers post !! "location" = Some location →
      send (create_get connection location) w = (get, w') →
      let rs := [create_post connection struct;
                 create_get connection location] in
      (status_code get = 200 →
       ∀ config, json_loads (text get) = Some (VDict config) →
         ∃ result,
           unmarshal config = Ret result
           ∧ let after := {| _config := _config result;
                             etag := etag (self s) |} in
             create connection s = (Ret after, exchanged s after w' rs)
             ∧ _config after !! "template-id" = config !! "template-id"
             ∧ _config after !! "template-version"
               = config !! "template-version")
      ∧ (status_code get ≠ 200 →
         create connection s =
         (Raise (UnexpectedManagementAPIResponse (text get)),
          exchanged s (self s) w' rs))
  else
    create connection s =
    (Raise (UnexpectedManagementAPIResponse (text post)),
     exchanged s (self s) w [create_post connection struct]).
Proof.
  intros Hmarshal Hpost. unfold create.
  rewrite bind_get_self, Hmarshal, bind_lift_Ret.
  rewrite (bind_requests _ _ _ _ _ Hpost).
  destruct (py_in (status_code post) [200; 201; 204]); simpl; [|done].
  intros location get w' Hlocation Hget. rewrite Hlocation, bind_mret.
  unfold create_get in Hget.
  rewrite (bind_requests _ _ (exchanged s (self s) w _) get w' Hget).
  unfold exchanged. simpl. rewrite <- !app_assoc. simpl. split.
  - intros -> config Hjson. simpl.
    unfold unmarshal_response, loads. rewrite Hjson.
    rewrite bind_bind, bind_bind, bind_mret.
    rewrite unmarshal_wraps, bind_lift_Ret, bind_set_config. simpl.
    eexists. split; [done|]. simpl. split; [done|].
    split; (destruct (config !! "req"); [by rewrite lookup_insert_ne|done]).
  - intros Hstatus.
    destruct (Z.eqb_spec (status_code get) 200) as [?|_]; [done|].
    by rewrite bind_raise.
Qed.

(** C4, as the code has it.  On a template that has a ['template-id'],
    [delete] sends one DELETE; on 200, 204 and 404 it removes the entry and
    returns the template, whose [template_id()] is then [None]; on any other
    status it raises the error with the body and the template stays. *)
Theorem delete_clears_id (connection : Connection) (s : state)
  (id : value) (response : http_response) (w : World) :
  _config (self s) !! "template-id" = Some id →
  send (delete_request connection (self s)) (world s) = (response, w) →
  let rs := [delete_request connection (self s)] in
  if py_in (status_code response) [200; 204; 404] then
    let after := {| _config := base.delete "template-id" (_config (self s));
                    etag := etag (self s) |} in
    delete connection s = (Ret after, exchanged s after w rs)
    ∧ template_id after = VNone
  else
    delete connection s =
    (Raise (UnexpectedManagementAPIResponse (text response)),
     exchanged s (self s) w rs).
Proof.
  intros Hid Hsend rs. unfold delete.
  rewrite bind_get_self. unfold delete_request in Hsend.
  rewrite (bind_requests _ _ _ _ _ Hsend).
  unfold py_in. simpl. rewrite orb_false_r.
  destruct (status_code response =? 200)%Z,
           (status_code response =? 204)%Z,
           (status_code response =? 404)%Z; simpl; try done;
    rewrite bind_get_self; simpl; rewrite (delitem_present _ _ _ Hid);
    rewrite bind_lift_Ret, bind_set_config; simpl;
    (split; [done|]);
    unfold template_id, field; simpl; by rewrite lookup_delete_eq.
Qed.

Lemma post_operation_answer {B} (connection : Connection)
  (payload : gmap string value) (k : http_response → action B) (s : state)
  response w :
  send (operation_request connection (self s) payload) (world s)
    = (response, w) →
  (post_operation connection payload ≫= k) s
  = k response
      (exchanged s (self s) w
         [operation_request connection (self s) payload]).
Proof.
  intros Hsend. unfold post_operation.
  rewrite bind_bind, bind_get_self. by apply bind_requests.
Qed.

Lemma authority_answer (connection : Connection) (n : Z) (s : state)
  response w :
  send (operation_request connection (self s) (authority_payload (VInt n)))
       (world s) = (response, w) →
  generate_template_certificate_authority connection (VInt n) s
  = (if (status_code response =? 201)%Z then Ret (self s)
     else Raise (UnexpectedManagementAPIResponse (text response)),
     exchanged s (self s) w
       [operation_request connection (self s) (authority_payload (VInt n))]).
Proof.
  intros Hsend. unfold generate_template_certificate_authority, assert_type.
  cbn [isinstance]. rewrite bind_lift_Ret.
  fold (authority_payload (VInt n)).
  rewrite (post_operation_answer _ _ _ _ _ _ Hsend).
  by destruct (status_code response =? 201)%Z.
Qed.

Lemma temporary_answer (connection : Connection) (n : Z)
  (common_name dns_name ip_addr : value) (if_necessary : bool) (s : state)
  response w :
  let payload := temporary_payload (VInt n) common_name dns_name ip_addr
                   if_necessary in
  send (operation_request connection (self s) payload) (world s)
    = (response, w) →
  generate_temporary_certificate connection (VInt n) common_name dns_name
    ip_addr if_necessary s
  = (if (status_code response =? 201)%Z then Ret (self s)
     else Raise (UnexpectedManagementAPIResponse (text response)),
     exchanged s (self s) w [operation_request connection (self s) payload]).
Proof.
  intros payload Hsend. unfold generate_temporary_certificate, assert_type.
  cbn [isinstance]. rewrite bind_lift_Ret.
  fold (temporary_payload (VInt n) common_name dns_name ip_addr if_necessary).
  fold payload.
  rewrite (post_operation_answer _ _ _ _ _ _ Hsend).
  by destruct (status_code response =? 201)%Z.
Qed.

(** C8, as the code has it.  The operations that POST an ['operation']
    payload do not share one reading of the status.  With an integer
    [valid_for], [generate_template_certificate_authority] and
    [generate_temporary_certificate] return the template on 201 and on no
    other status: 200 and 204 raise the error with the body like the rest.
    [get_certificates_for_template] returns the parsed body on 200 and
    [None] on 404 and raises the error on every other status. *)
Theorem operations_read_the_status (connection : Connection) (s : state)
  (n : Z) (common_name dns_name ip_addr : value) (if_necessary : bool) :
  let outcome_on (payload : gmap string value) (response : http_response)
        (w : World) (result : outcome Template) :=
    (result,
     exchanged s (self s) w [operation_request connection (self s) payload]) in
  (∀ response w,
     send (operation_request connection (self s)
             (authority_payload (VInt n))) (world s) = (response, w) →
     (status_code response = 201 →
      generate_template_certificate_authority connection (VInt n) s
      = outcome_on (authority_payload (VInt n)) response w (Ret (self s)))
     ∧ (status_code response ≠ 201 →
        generate_template_certificate_authority connection (VInt n) s
        = outcome_on (authority_payload (VInt n)) response w
            (Raise (UnexpectedManagementAPIResponse (text response)))))
  ∧ (∀ response w,
       let payload := temporary_payload (VInt n) common_name dns_name
                        ip_addr if_necessary in
       send (operation_request connection (self s) payload) (world s)
         = (response, w) →
       (status_code response = 201 →
        generate_temporary_certificate connection (VInt n) common_name
          dns_name ip_addr if_necessary s
        = outcome_on payload response w (Ret (self s)))
       ∧ (status_code response ≠ 201 →
          generate_temporary_certificate connection (VInt n) common_name
            dns_name ip_addr if_necessary s
          = outcome_on payload response w
              (Raise (UnexpectedManagementAPIResponse (text response)))))
  ∧ (∀ response w,
       send (operation_request connection (self s) list_payload) (world s)
         = (response, w) →
       let after :=
         exchanged s (self s) w
           [operation_request connection (self s) list_payload] in
       (status_code response = 200 →
        ∀ doc, json_loads (text response) = Some doc →
          get_certificates_for_template connection s = (Ret doc, after))
       ∧ (status_code response = 404 →
          get_certificates_for_template connection s = (Ret VNone, after))
       ∧ (status_code response ≠ 200 → status_code response ≠ 404 →
          get_certificates_for_template connection s
          = (Raise (UnexpectedManagementAPIResponse (text response)),
             after))).
Proof.
  intros outcome_on. subst outcome_on. cbv zeta. split; [|split].
  - intros response w Hsend.
    rewrite (authority_answer _ _ _ _ _ Hsend). split.
    + by intros ->.
    + intros Hne. by destruct (Z.eqb_spec (status_code response) 201).
  - intros response w Hsend.
    rewrite (temporary_answer _ _ _ _ _ _ _ _ _ Hsend). split.
    + by intros ->.
    + intros Hne. by destruct (Z.eqb_spec (status_code response) 201).
  - intros response w Hsend. unfold get_certificates_for_template.
    rewrite (post_operation_answer _ _ _ _ _ _ Hsend).
    unfold found_or_None, loads. repeat split.
    + intros -> doc ->. done.
    + by intros ->.
    + intros Hne1 Hne2.
      destruct (Z.eqb_spec (status_code response) 200) as [?|_]; [done|].
      by destruct (Z.eqb_spec (status_code response) 404) as [?|_].
Qed.

End operations.

End template_properties.

(* ===================================================================== *)
(** * The template model at concrete runs *)
(* ===================================================================== *)

Module template_runs.
Import Py validators template stated examples template_properties.

#[local] Existing Instance script_environment.

(** The templates of the runs are what the constructor builds and what a
    server would hand back. *)
Example unsaved_is_constructed :
  __init__ (VStr "example") (VStr "a template")
           (request.Request "Example Corp") (VStr "rsa") VNone VNone
  = Ret unsaved.
Proof. reflexivity. Qed.

(** C1, against the sentence.  The POST is answered 201 with a location,
    the GET that follows is answered 500 with a well-formed properties
    document: [create] raises, where the sentence of the specification has
    it return the refreshed template. *)
Lemma create_not_as_stated : ¬ create_as_stated localhost create_run_refused.
Proof.
  intros Hstated.
  pose proof (Hstated (flattened (_config unsaved)) (created location7)
                [answer 500 properties_text]
                (marshal_flattens unsaved eq_refl) eq_refl) as Hsuccess.
  simpl in Hsuccess.
  destruct (Hsuccess location7 (answer 500 properties_text) []
              (<["template-id" := VInt 7]> ∅) eq_refl eq_refl eq_refl)
    as (result & _ & Hcreate).
  vm_compute in Hcreate. discriminate Hcreate.
Qed.

(** C1 at a run: 201 with a location, then 200 with the properties. *)
Lemma create_refreshes_on_200_witness :
  marshal (self create_run) = Ret (flattened (_config unsaved))
  ∧ send (create_post localhost (flattened (_config unsaved)))
         (world create_run)
    = (created location7, [answer 200 properties_text])
  ∧ ∃ after, fst (create localhost create_run) = Ret after
             ∧ template_id after = VInt 7.
Proof.
  split; [exact (marshal_flattens unsaved eq_refl)|].
  split; [reflexivity|].
  pose proof (create_refreshes_on_200 localhost create_run
                (flattened (_config unsaved)) (created location7)
                [answer 200 properties_text]
                (marshal_flattens unsaved eq_refl) eq_refl) as Hcreate.
  simpl in Hcreate.
  destruct (Hcreate location7 (answer 200 properties_text) []
              eq_refl eq_refl) as [Hok _].
  destruct (Hok eq_refl (<["template-id" := VInt 7]> ∅) eq_refl)
    as (result & Hresult & Hrun & Hid & _).
  eexists. split; [by rewrite Hrun|].
  unfold template_id, field. cbn [_config] in Hid |- *. by rewrite Hid.
Defined.

(** C4, against the sentence.  The server answers 404 to the DELETE of a
    template that was never saved: [delete] raises [KeyError], where the
    sentence has it return. *)
Lemma delete_not_as_stated : ¬ delete_as_stated localhost delete_run_unsaved.
Proof.
  intros Hstated.
  destruct (Hstated (answer 404 "") [] eq_refl) as (after & Hdelete & _).
  vm_compute in Hdelete. discriminate Hdelete.
Qed.

(** C4 at a run: a saved template and a 404 answer. *)
Lemma delete_clears_id_witness :
  _config (self delete_run) !! "template-id" = Some (VInt 7)
  ∧ send (delete_request localhost (self delete_run)) (world delete_run)
    = (answer 404 "", [])
  ∧ ∃ after, fst (delete localhost delete_run) = Ret after
             ∧ template_id after = VNone.
Proof.
  split; [reflexivity|]. split; [reflexivity|].
  destruct (delete_clears_id localhost delete_run
              (VInt 7) (answer 404 "") [] eq_refl eq_refl)
    as [Hdelete Hid].
  eexists. split; [by rewrite Hdelete|exact Hid].
Defined.

(** C8, against the sentence.  The server answers 200 to the POST of
    [generate-template-certificate-authority]: the method raises, where the
    sentence counts 200 as success. *)
Lemma authority_not_as_stated :
  ¬ operation_as_stated
      (generate_template_certificate_authority localhost (VInt 30))
      (authority_payload (VInt 30)) localhost authority_run_200.
Proof.
  intros Hstated.
  pose proof (Hstated (answer 200 "done") [] eq_refl) as Hrun.
  vm_compute in Hrun. discriminate Hrun.
Qed.

(** C8 at a run: a 201 answer. *)
Lemma operations_read_the_status_witness :
  send (operation_request localhost (self authority_run)
          (authority_payload (VInt 30))) (world authority_run)
  = (answer 201 "", [])
  ∧ status_code (answer 201 "") = 201
  ∧ fst (generate_template_certificate_authority localhost (VInt 30)
           authority_run)
    = Ret saved.
Proof.
  split; [reflexivity|]. split; [reflexivity|].
  destruct (operations_read_the_status localhost authority_run 30
              VNone VNone VNone true)
    as (Hauthority & _ & _).
  destruct (Hauthority (answer 201 "") [] eq_refl) as [Hcreated _].
  by rewrite (Hcreated eq_refl).
Defined.

(** C3 at a run: a saved template and a 204 answer. *)
Lemma update_sends_mutable_fields_witness :
  req_is_Request (_config (self update_run)) = true
  ∧ _config (self update_run) !! "template-id" = Some (VInt 7)
  ∧ _config (self update_run) !! "template-version" = Some (VInt 0)
  ∧ send (update_request localhost (self update_run)) (world update_run)
    = (answer 204 "", [])
  ∧ update localhost update_run
    = (Ret saved,
       exchanged update_run saved [] [update_request localhost saved]).
Proof.
  repeat (split; [reflexivity|]).
  destruct (update_sends_mutable_fields localhost update_run
              (VInt 7) (VInt 0) (answer 204 "") []
              eq_refl eq_refl eq_refl eq_refl)
    as (_ & _ & _ & _ & Hreturns & _).
  apply Hreturns. by right.
Defined.

(** C10 at a run: a template that was never saved. *)
Lemma update_unsaved_raises_KeyError_witness :
  req_is_Request (_config (self update_run_unsaved)) = true
  ∧ _config (self update_run_unsaved) !! "template-id" = None
  ∧ ∃ key, update localhost update_run_unsaved
           = (Raise (KeyError key), update_run_unsaved).
Proof.
  split; [reflexivity|]. split; [reflexivity|].
  destruct (update_unsaved_raises_KeyError localhost update_run_unsaved
              eq_refl (or_introl eq_refl))
    as (key & _ & _ & Hupdate).
  by exists key.
Defined.

(** C9 at a run: the saved template of the examples. *)
Lemma marshal_unmarshal_round_trip_witness :
  _config saved !! "req"
  = Some (VRequest (VDict {[ "organizationName" := VStr "Example Corp" ]}))
  ∧ ∃ struct back,
      marshal saved = Ret struct ∧ unmarshal struct = Ret back
      ∧ marshal back = Ret struct.
Proof.
  split; [reflexivity|].
  destruct (marshal_unmarshal_round_trip saved
              (VDict {[ "organizationName" := VStr "Example Corp" ]})
              eq_refl)
    as (struct & back & Hmarshal & _ & _ & Hback & _ & _ & _ & Hagain).
  exists struct, back. split; [exact Hmarshal|]. split; [exact Hback|].
  exact Hagain.
Defined.

End template_runs.

(* ===================================================================== *)
(** * Properties of the command line front end *)
(* ===================================================================== *)

Module mma_properties.
Import Py mma stated.

#[local] Open Scope list_scope.

(** The loop started in any state: each list grows by the tokens of its
    kind, in order. *)
Lemma scan_from (argv : list string) :
  ∀ st : tokens,
    let ks := kinds (optarg st) argv in
    let st' := fold_left scan_token argv st in
    options st' = options st ++ select an_option ks argv
    ∧ positional st' = positional st ++ select a_positional ks argv
    ∧ params st' = params st ++ select a_param ks argv.
Proof.
  induction argv as [|tok rest IH]; intros st; simpl.
  - by rewrite !app_nil_r.
  - destruct (IH (scan_token st tok)) as (Ho & Hp & Hq).
    rewrite Ho, Hp, Hq. clear.
    unfold scan_token, own_kind, announces.
    destruct (optarg st) eqn:Hoptarg; simpl.
    + by rewrite <- !app_assoc.
    + destruct (startswith tok "-"); simpl.
      * destruct (tok =? "--debug")%string; simpl;
          by rewrite <- !app_assoc.
      * destruct (contains "=" tok); simpl; by rewrite <- !app_assoc.
Qed.

Lemma kinds_length (argv : list string) :
  ∀ after, length (kinds after argv) = length argv.
Proof.
  induction argv as [|tok rest IH]; intros after; [done|].
  simpl. destruct after; simpl; by rewrite IH.
Qed.

(** A token that begins with ['-'] is an option wherever it stands. *)
Lemma dash_is_option (argv : list string) :
  ∀ after tok, tok ∈ argv → startswith tok "-" = true →
               tok ∈ select an_option (kinds after argv) argv.
Proof.
  induction argv as [|first rest IH]; intros after tok Hin Hdash.
  - by apply elem_of_nil in Hin.
  - apply elem_of_cons in Hin as [->|Hin].
    + simpl. destruct after; simpl; [by left|].
      unfold own_kind. rewrite Hdash. simpl. by left.
    + simpl. destruct after; simpl.
      * right. by apply IH.
      * destruct (own_kind first); simpl; [right| |]; by apply IH.
Qed.

(** The loop over the tokens of one well-formed word. *)
Lemma scan_word (w : word) (st : tokens) :
  well_formed w = true → optarg st = false →
  fold_left scan_token (spell w) st
  = {| options := options st ++ own_tokens an_option w;
       params := params st ++ own_tokens a_param w;
       positional := positional st ++ own_tokens a_positional w;
       optarg := false |}.
Proof.
  intros Hw Hst. destruct st as [os ps qs flag]. simpl in Hst. subst flag.
  unfold own_tokens.
  destruct w as [name argument| |text|text]; simpl in Hw |- *.
  - unfold announces in Hw. apply andb_true_iff in Hw as [Hdash Hdebug].
    unfold scan_token. simpl. rewrite Hdash, Hdebug. simpl.
    by rewrite !app_nil_r, <- app_assoc.
  - unfold scan_token. simpl. by rewrite !app_nil_r.
  - apply andb_true_iff in Hw as [Hdash Heq]. apply negb_true_iff in Hdash.
    unfold scan_token. simpl. rewrite Hdash, Heq. by rewrite !app_nil_r.
  - apply andb_true_iff in Hw as [Hdash Heq].
    apply negb_true_iff in Hdash. apply negb_true_iff in Heq.
    unfold scan_token. simpl. rewrite Hdash, Heq. by rewrite !app_nil_r.
Qed.

Lemma tokens_of_cons (k : kind) (w : word) (ws : list word) :
  tokens_of k (w :: ws) = own_tokens k w ++ tokens_of k ws.
Proof.
  unfold tokens_of, own_tokens. rewrite filter_cons.
  by destruct (decide (word_kind w = k)).
Qed.

(** The loop over a command line spelled from well-formed words. *)
Lemma scan_words_from (ws : list word) :
  Forall (λ w, well_formed w = true) ws →
  ∀ st : tokens, optarg st = false →
    fold_left scan_token (concat (map spell ws)) st
    = {| options := options st ++ tokens_of an_option ws;
         params := params st ++ tokens_of a_param ws;
         positional := positional st ++ tokens_of a_positional ws;
         optarg := false |}.
Proof.
  induction 1 as [|w ws Hw _ IH]; intros st Hst.
  - unfold tokens_of. simpl. rewrite !app_nil_r.
    destruct st. simpl in Hst. by subst.
  - simpl map. simpl concat. rewrite fold_left_app.
    rewrite (scan_word w st Hw Hst), IH by done. simpl.
    by rewrite !tokens_of_cons, <- !app_assoc.
Qed.

Lemma scan_words (ws : list word) :
  Forall (λ w, well_formed w = true) ws →
  scan (concat (map spell ws))
  = {| options := tokens_of an_option ws;
       params := tokens_of a_param ws;
       positional := tokens_of a_positional ws;
       optarg := false |}.
Proof.
  intros Hws. unfold scan. by rewrite scan_words_from.
Qed.

(** With positional words that no hack rewrites, the rebuilt token list is
    the three lists one after the other. *)
Lemma rebuild_untouched (st : tokens) :
  untouched (positional st) →
  rebuild st
  = Ret {| command := default "" (positional st !! 0%nat);
           artifact := positional st !! 1%nat;
           argv := options st ++ positional st ++ params st |}.
Proof.
  unfold untouched, rebuild.
  destruct (positional st) as [|command [|art rest]]; [done| |]; simpl.
  - intros [Hin Hstop]. rewrite bool_decide_eq_true_2 by done. simpl.
    by destruct (String.eqb_spec command "stop").
  - intros Hserver. by rewrite bool_decide_eq_false_2.
Qed.

Section dispatch.
Context {parser : Type}.
Variable command_template : string → option (gmap string (@entry parser)).

Lemma run_untouched (argv : list string) (p : parser) :
  let st := scan argv in
  untouched (positional st) →
  select_parser command_template (default "" (positional st !! 0%nat))
    (positional st !! 1%nat) = Ret p →
  run command_template argv
  = Ret (p, options st ++ positional st ++ params st).
Proof.
  intros st Huntouched Hparser. unfold run. fold st.
  rewrite (rebuild_untouched st Huntouched). simpl.
  by rewrite Hparser.
Qed.

(** Two command lines of well-formed words with the same words of each
    kind, in the same order within the kind, are dispatched alike. *)
Lemma run_interleaving (ws ws' : list word) :
  Forall (λ w, well_formed w = true) ws →
  Forall (λ w, well_formed w = true) ws' →
  (∀ k, tokens_of k ws = tokens_of k ws') →
  run command_template (concat (map spell ws))
  = run command_template (concat (map spell ws')).
Proof.
  intros Hws Hws' Hsame. unfold run.
  by rewrite (scan_words ws Hws), (scan_words ws' Hws'), !Hsame.
Qed.

(** C7, as the code has it.  The loop of [run] sorts the tokens as [kinds]
    tells: a token right after one that announced an argument is an option
    whatever its text, and announces nothing itself; any other token is an
    option when it begins with ['-'] (announcing an argument unless it is
    ['--debug']), a parameter when it contains ['='], and positional
    otherwise.  So every token that begins with ['-'] is among the options.
    When the positional words pass the usage tests and neither the
    server-type nor the stop rewriting applies, the parser found in the
    command table is given options, positional words and parameters, in that
    order.  Command lines made of flags with their argument, ['--debug'],
    parameters and positional words are dispatched alike whatever the
    interleaving of the kinds. *)
Theorem run_sorts_tokens (argv : list string) :
  let st := scan argv in
  let ks := kinds false argv in
  (options st = select an_option ks argv
   ∧ positional st = select a_positional ks argv
   ∧ params st = select a_param ks argv)
  ∧ (∀ tok, tok ∈ argv → startswith tok "-" = true → tok ∈ options st)
  ∧ (∀ p,
       untouched (positional st) →
       select_parser command_template (default "" (positional st !! 0%nat))
         (positional st !! 1%nat) = Ret p →
       run command_template argv
       = Ret (p, options st ++ positional st ++ params st))
  ∧ (∀ ws ws',
       argv = concat (map spell ws) →
       Forall (λ w, well_formed w = true) ws →
       Forall (λ w, well_formed w = true) ws' →
       (∀ k, tokens_of k ws = tokens_of k ws') →
       run command_template argv
       = run command_template (concat (map spell ws'))).
Proof.
  intros st ks.
  pose proof (scan_from argv
                {| options := []; params := []; positional := [];
                   optarg := false |}) as Hscan.
  simpl in Hscan. fold (scan argv) in Hscan. fold st ks in Hscan.
  split; [exact Hscan|]. split; [|split].
  - intros tok Hin Hdash. destruct Hscan as [-> _].
    by apply dash_is_option.
  - intros p. by apply run_untouched.
  - intros ws ws' -> Hws Hws' Hsame. by apply run_interleaving.
Qed.

End dispatch.

(** C7, against the sentence.  An option value that begins with a dash:
    [-5] is taken as the argument
    of [--offset] and announces nothing, so [list] is positional, where the
    sentence of the specification sends it to the options. *)
Lemma sorting_not_as_stated :
  ¬ sorting_as_stated ["--offset"; "-5"; "list"; "databases"].
Proof.
  intros [Hoptions _]. vm_compute in Hoptions. discriminate Hoptions.
Qed.

(** C7 at a run: [list databases] written in two orders. *)
Lemma run_sorts_tokens_witness :
  untouched (positional (scan (concat (map spell examples.words_one))))
  ∧ Forall (λ w, well_formed w = true) examples.words_one
  ∧ Forall (λ w, well_formed w = true) examples.words_two
  ∧ (∀ k, tokens_of k examples.words_one = tokens_of k examples.words_two)
  ∧ run examples.one_command (concat (map spell examples.words_one))
    = Ret ("list databases",
           ["--debug"; "--hostname"; "localhost"; "list"; "databases";
            "name=Documents"])
  ∧ run examples.one_command (concat (map spell examples.words_two))
    = run examples.one_command (concat (map spell examples.words_one)).
Proof.
  assert (untouched
            (positional (scan (concat (map spell examples.words_one)))))
    as Huntouched.
  { vm_compute. intros Hin. by repeat (inversion Hin as [|? ? ? Hin']; subst;
                                       clear Hin; rename Hin' into Hin). }
  assert (Forall (λ w, well_formed w = true) examples.words_one) as Hone
    by (repeat constructor).
  assert (Forall (λ w, well_formed w = true) examples.words_two) as Htwo
    by (repeat constructor).
  assert (∀ k, tokens_of k examples.words_one
               = tokens_of k examples.words_two) as Hsame
    by (by intros []).
  destruct (run_sorts_tokens examples.one_command
              (concat (map spell examples.words_one)))
    as (_ & _ & Hrun & Halike).
  repeat (split; [assumption|]). split.
  - exact (Hrun "list databases" Huntouched eq_refl).
  - symmetry. exact (Halike _ _ eq_refl Hone Htwo Hsame).
Defined.

End mma_properties.

(* ===================================================================== *)
(** * More of the template model: constructor, accessors, marshaling *)
(* ===================================================================== *)

Module template_extras.
Import Py validators template stated wire template_properties.

#[local] Open Scope list_scope.

(** What [unmarshal] stores flattens back to what it was given. *)
Lemma flattened_unmarshal (config : gmap string value) :
  flattened (match config !! "req" with
             | Some r => <["req" := VRequest r]> config
             | None => config
             end) = config.
Proof.
  unfold flattened. destruct (config !! "req") as [r|] eqn:Hreq.
  - rewrite lookup_insert_eq, insert_insert_eq. by apply insert_id.
  - by rewrite Hreq.
Qed.

Lemma unmarshal_marshal_round_trip_aux (config : gmap string value) :
  ∃ this,
    unmarshal config = Ret this
    ∧ req_is_Request (_config this) = true
    ∧ marshal this = Ret config.
Proof.
  eexists. split; [apply unmarshal_wraps|].
  assert (req_is_Request
            (match config !! "req" with
             | Some r => <["req" := VRequest r]> config
             | None => config
             end) = true) as Hinv.
  { unfold req_is_Request. destruct (config !! "req") eqn:Hreq.
    - by rewrite lookup_insert_eq.
    - by rewrite Hreq. }
  split; [exact Hinv|].
  rewrite marshal_flattens by exact Hinv. simpl.
  by rewrite flattened_unmarshal.
Qed.


(** X2. [marshal] returns exactly when the class invariant holds, and
    raises [AttributeError] otherwise.  What it returns has the keys of the
    configuration, the same value under every key but ['req'], and under
    ['req'] the configuration of the request. *)
Theorem marshal_returns_iff_invariant (this : Template) :
  marshal this
  = (if req_is_Request (_config this)
     then Ret (flattened (_config this))
     else Raise (AttributeError "_config"))
  ∧ dom (flattened (_config this)) = dom (_config this)
  ∧ (∀ key, key ≠ "req" →
            flattened (_config this) !! key = _config this !! key)
  ∧ (∀ c, _config this !! "req" = Some (VRequest c) →
          flattened (_config this) !! "req" = Some c).
Proof.
  split; [|split; [|split]].
  - destruct (req_is_Request (_config this)) eqn:Hinv.
    + by apply marshal_flattens.
    + by apply marshal_needs_Request.
  - unfold flattened. destruct (_config this !! "req") as [[]|] eqn:Hreq;
      try done.
    rewrite dom_insert_L. apply elem_of_dom_2 in Hreq.
    apply subseteq_union_1_L. by apply singleton_subseteq_l.
  - intros key Hne. unfold flattened.
    destruct (_config this !! "req") as [[]|]; try done.
    by rewrite lookup_insert_ne.
  - intros c Hreq. unfold flattened. rewrite Hreq.
    by rewrite lookup_insert_eq.
Qed.

(** X3. The loop of [marshal] does not depend on the order of the keys:
    run over the entries of a dict in insertion order, or in the reverse
    order, it gives what it gives on the finite map of these entries. *)
Theorem marshal_in_insertion_order (entries : list (string * value))
  (e : value) :
  NoDup entries.*1 →
  marshal_in_order entries
  = marshal {| _config := list_to_map entries; etag := e |}
  ∧ marshal_in_order (reverse entries) = marshal_in_order entries.
Proof.
  intros Hkeys.
  assert (NoDup (reverse entries).*1) as Hrev
    by (by rewrite fmap_reverse, reverse_Permutation).
  split; [by apply marshal_order_irrelevant|].
  rewrite (marshal_order_irrelevant _ e Hrev).
  rewrite (marshal_order_irrelevant _ e Hkeys).
  f_equal. f_equal. apply map_eq. intros key.
  apply option_eq. intros v.
  rewrite <- !elem_of_list_to_map by done.
  by rewrite elem_of_reverse.
Qed.


Lemma set_option_field_reads (key other : string) (v : value)
  (this : Template) :
  options_are_dict this = true → key ≠ other →
  ∃ after,
    set_option_field key v this = Ret after
    ∧ option_field key after = Ret v
    ∧ option_field other after = option_field other this
    ∧ (∀ k, k ≠ "options" → _config after !! k = _config this !! k).
Proof.
  intros Hdict Hne. unfold options_are_dict in Hdict.
  unfold set_option_field, option_field.
  destruct (_config this !! "options") as [[]|] eqn:Hoptions; try done;
    simpl; eexists; (split; [reflexivity|]); simpl;
    rewrite lookup_insert_eq, lookup_insert_eq, lookup_insert_ne by done;
    (split; [done|]); (split; [done|]);
    intros k Hk; by rewrite lookup_insert_ne.
Qed.

(** X5. On a template whose options are absent or a dictionary,
    [set_pass_phrase] and [set_key_length] store what [pass_phrase] and
    [key_length] read, neither disturbs the other option, and no other
    field of the configuration changes. *)
Theorem option_setters_then_accessors (v : value) (this : Template) :
  options_are_dict this = true →
  (∃ after,
     set_pass_phrase v this = Ret after
     ∧ pass_phrase after = Ret v
     ∧ key_length after = key_length this
     ∧ (∀ k, k ≠ "options" → _config after !! k = _config this !! k))
  ∧ (∃ after,
       set_key_length v this = Ret after
       ∧ key_length after = Ret v
       ∧ pass_phrase after = pass_phrase this
       ∧ (∀ k, k ≠ "options" → _config after !! k = _config this !! k)).
Proof.
  intros Hdict. split.
  - by apply (set_option_field_reads "pass-phrase" "key-length").
  - by apply (set_option_field_reads "key-length" "pass-phrase").
Qed.

(** ** The operations *)

Section operations.
Context `{env : Environment}.

(** Every path through a method body, one case per exchange and test. *)
Ltac run_action :=
  unfold mbind, action_bind, mret, action_ret, lift, raise, get_self,
    set_config, requests;
  repeat (case_match; simplify_eq/=); try done.

(** X8. [update], the two [generate_...] methods,
    [get_certificates_for_template], [lookup], [list] and [read] leave the
    template they are called on as it is, whether they return or raise, and
    send one request at most: nothing is sent twice. *)
Theorem operations_read_only (connection : Connection)
  (valid_for common_name dns_name ip_addr tempid : value)
  (if_necessary include_names : bool) :
  reads_only (update connection)
  ∧ reads_only (generate_template_certificate_authority connection valid_for)
  ∧ reads_only (generate_temporary_certificate connection valid_for
                  common_name dns_name ip_addr if_necessary)
  ∧ reads_only (get_certificates_for_template connection)
  ∧ reads_only (lookup connection tempid)
  ∧ reads_only (Template_list connection include_names)
  ∧ reads_only (read connection).
Proof.
  unfold reads_only. repeat split.
  all: unfold update, generate_template_certificate_authority,
         generate_temporary_certificate, get_certificates_for_template,
         lookup, Template_list, read, lookup, post_operation, found_or_None,
         unmarshal_response, loads.
  all: run_action; eauto.
Qed.

(** X9. [create] and [delete] change the template only when they return:
    after any exception the configuration is the one before the call.
    [create] sends two requests at most and [delete] one. *)
Theorem create_delete_change_only_on_return (connection : Connection)
  (s : state) :
  (returns (fst (create connection s)) = false →
   self (snd (create connection s)) = self s)
  ∧ (returns (fst (delete connection s)) = false →
     self (snd (delete connection s)) = self s)
  ∧ (length (sent (snd (create connection s))) ≤ length (sent s) + 2)%nat
  ∧ (length (sent (snd (delete connection s))) ≤ length (sent s) + 1)%nat.
Proof.
  repeat split.
  all: unfold create, delete, unmarshal_response, loads.
  all: run_action; rewrite ?length_app; simpl; lia.
Qed.

Lemma bind_run {A B} (m : action A) (k : A → action B) (s : state) :
  (m ≫= k) s
  = match m s with
    | (Ret a, s') => k a s'
    | (Raise e, s') => (Raise e, s')
    end.
Proof. reflexivity. Qed.

(** The run of [lookup] after the answer of the server. *)
Lemma lookup_answer (connection : Connection) (tempid : value) (s : state)
  response w :
  send (lookup_request connection tempid) (world s) = (response, w) →
  lookup connection tempid s
  = (if (status_code response =? 200)%Z then
       match json_loads (text response) with
       | Some (VDict config) =>
           Ret (Some {| _config := match config !! "req" with
                                   | Some r => <["req" := VRequest r]> config
                                   | None => config
                                   end;
                        etag := VNone |})
       | Some _ => Raise NotADict
       | None => Raise ValueError
       end
     else if (status_code response =? 404)%Z then Ret None
     else Raise (UnexpectedManagementAPIResponse (text response)),
     exchanged s (self s) w [lookup_request connection tempid]).
Proof.
  intros Hsend. unfold lookup. cbv zeta. unfold lookup_request in Hsend.
  rewrite (bind_requests _ _ _ _ _ Hsend).
  unfold unmarshal_response, loads.
  destruct (status_code response =? 200)%Z; [|by repeat case_match].
  destruct (json_loads (text response)) as [doc|]; [|done].
  rewrite bind_bind, bind_mret.
  destruct doc; try done.
  by rewrite unmarshal_wraps, bind_lift_Ret.
Qed.

(** X6. [lookup] sends one GET for the properties of the id.  On 200 with
    a JSON object it returns a template that keeps the class invariant and
    marshals to that object; on 404 it returns [None]; on any other status
    it raises the error with the body. *)
Theorem lookup_finds_or_None (connection : Connection) (tempid : value)
  (s : state) (response : http_response) (w : World) :
  send (lookup_request connection tempid) (world s) = (response, w) →
  snd (lookup connection tempid s)
  = exchanged s (self s) w [lookup_request connection tempid]
  ∧ (status_code response = 200 →
     ∀ config, json_loads (text response) = Some (VDict config) →
       ∃ found,
         fst (lookup connection tempid s) = Ret (Some found)
         ∧ unmarshal config = Ret found
         ∧ req_is_Request (_config found) = true
         ∧ marshal found = Ret config)
  ∧ (status_code response = 404 →
     fst (lookup connection tempid s) = Ret None)
  ∧ (status_code response ≠ 200 → status_code response ≠ 404 →
     fst (lookup connection tempid s)
     = Raise (UnexpectedManagementAPIResponse (text response))).
Proof.
  intros Hsend. rewrite (lookup_answer _ _ _ _ _ Hsend). simpl.
  split; [done|]. split; [|split].
  - intros -> config ->. simpl.
    destruct (unmarshal_marshal_round_trip_aux config)
      as (found & Hfound & Hinv & Hmarshal).
    exists found. rewrite unmarshal_wraps in Hfound.
    injection Hfound as <-. rewrite unmarshal_wraps. done.
  - by intros ->.
  - intros Hne1 Hne2.
    destruct (Z.eqb_spec (status_code response) 200) as [?|_]; [done|].
    by destruct (Z.eqb_spec (status_code response) 404) as [?|_].
Qed.

(** X7. [read] never returns and never refreshes the template.  On a
    template with an id it sends the GET of [lookup]; when the answer is 404,
    or 200 with a JSON object, the name [auth] is read and [NameError] is
    raised; any other status raises the error with the body. *)
Theorem read_never_returns (connection : Connection) (s : state) :
  returns (fst (read connection s)) = false
  ∧ self (snd (read connection s)) = self s
  ∧ (is_not_None (template_id (self s)) = true →
     ∀ response w,
       send (lookup_request connection (template_id (self s))) (world s)
         = (response, w) →
       snd (read connection s)
       = exchanged s (self s) w
           [lookup_request connection (template_id (self s))]
       ∧ (status_code response = 404 →
          fst (read connection s) = Raise (NameError "auth"))
       ∧ (status_code response = 200 →
          ∀ config, json_loads (text response) = Some (VDict config) →
                    fst (read connection s) = Raise (NameError "auth"))
       ∧ (status_code response ≠ 200 → status_code response ≠ 404 →
          fst (read connection s)
          = Raise (UnexpectedManagementAPIResponse (text response)))).
Proof.
  split; [|split].
  - unfold read, lookup, unmarshal_response, loads. run_action.
  - unfold read, lookup, unmarshal_response, loads. run_action.
  - intros Hid response w Hsend. unfold read.
    rewrite bind_get_self, Hid. cbn [negb]. rewrite bind_mret, bind_get_self.
    rewrite bind_run, (lookup_answer _ _ _ _ _ Hsend).
    repeat split.
    + by repeat case_match.
    + by intros ->.
    + by intros -> config ->.
    + intros Hne1 Hne2.
      destruct (Z.eqb_spec (status_code response) 200) as [?|_]; [done|].
      by destruct (Z.eqb_spec (status_code response) 404) as [?|_].
Qed.

(** X10. After a successful POST, [create] raises [KeyError] when the
    answer names no location, and [ValueError] when the properties fetched
    with status 200 are not JSON; by then the server has created the
    template, and the local template is as before. *)
Theorem create_after_success_may_raise (connection : Connection) (s : state)
  (struct : gmap string value) (post : http_response) (w : World) :
  marshal (self s) = Ret struct →
  send (create_post connection struct) (world s) = (post, w) →
  py_in (status_code post) [200; 201; 204] = true →
  (headers post !! "location" = None →
   create connection s
   = (Raise (KeyError "location"),
      exchanged s (self s) w [create_post connection struct]))
  ∧ (∀ location get w',
       headers post !! "location" = Some location →
       send (create_get connection location) w = (get, w') →
       status_code get = 200 →
       json_loads (text get) = None →
       create connection s
       = (Raise ValueError,
          exchanged s (self s) w'
            [create_post connection struct; create_get connection location])).
Proof.
  intros Hmarshal Hpost Hsuccess. unfold create.
  rewrite bind_get_self, Hmarshal, bind_lift_Ret.
  unfold create_post in Hpost. rewrite (bind_requests _ _ _ _ _ Hpost).
  rewrite Hsuccess. cbn [negb]. split.
  - intros ->. by rewrite bind_raise.
  - intros location get w' -> Hget Hstatus Hjson. rewrite bind_mret.
    unfold create_get in Hget.
    rewrite (bind_requests _ _ (exchanged s (self s) w _) get w' Hget).
    rewrite Hstatus. cbn [Z.eqb Pos.eqb].
    unfold unmarshal_response, loads. rewrite Hjson.
    rewrite !bind_bind, bind_raise.
    unfold exchanged. simpl. by rewrite <- app_assoc.
Qed.

(** The run of [update] on a template that has both server-assigned
    fields. *)
Lemma update_answer (connection : Connection) (s : state) id version
  response w :
  req_is_Request (_config (self s)) = true →
  _config (self s) !! "template-id" = Some id →
  _config (self s) !! "template-version" = Some version →
  send (update_request connection (self s)) (world s) = (response, w) →
  update connection s
  = (if negb (py_in (status_code response) [200; 204])
     then Raise (UnexpectedManagementAPIResponse (text response))
     else Ret (self s),
     exchanged s (self s) w [update_request connection (self s)]).
Proof.
  intros Hinv Hid Hversion Hsend. unfold update.
  rewrite bind_get_self, (marshal_flattens _ Hinv), bind_lift_Ret.
  rewrite (delitem_present _ _ version), bind_lift_Ret
    by by rewrite flattened_lookup_other.
  rewrite (delitem_present _ _ id), bind_lift_Ret
    by (rewrite lookup_delete_ne by done; by rewrite flattened_lookup_other).
  unfold update_request, update_payload in Hsend.
  rewrite (bind_requests _ _ _ _ _ Hsend).
  by destruct (py_in (status_code response) [200; 204]).
Qed.

(** X11. A template that [unmarshal] built from a document with an id and
    a version, as [create] and [lookup] leave it, can be updated at once:
    [update] sends the document itself without the two fields, and returns
    exactly on 200 and 204. *)
Theorem update_after_unmarshal (connection : Connection) (s : state)
  (config : gmap string value) (id version : value)
  (response : http_response) (w : World) :
  unmarshal config = Ret (self s) →
  config !! "template-id" = Some id →
  config !! "template-version" = Some version →
  send (update_request connection (self s)) (world s) = (response, w) →
  update_payload (self s)
  = base.delete "template-id" (base.delete "template-version" config)
  ∧ snd (update connection s)
    = exchanged s (self s) w [update_request connection (self s)]
  ∧ returns (fst (update connection s))
    = py_in (status_code response) [200; 204].
Proof.
  intros Hunmarshal Hid Hversion Hsend.
  assert (req_is_Request (_config (self s)) = true) as Hinv
    by by eapply unmarshal_keeps_invariant.
  assert (flattened (_config (self s)) = config) as Hflat.
  { rewrite unmarshal_wraps in Hunmarshal. injection Hunmarshal as <-.
    simpl. apply flattened_unmarshal. }
  split; [unfold update_payload; by rewrite Hflat|].
  rewrite (update_answer connection s id version response w); try done.
  - cbn [fst snd]. split; [done|].
    by destruct (py_in (status_code response) [200; 204]).
  - by rewrite (unmarshal_lookup_other config (self s)).
  - by rewrite (unmarshal_lookup_other config (self s)).
Qed.

(** The run of [delete] after the answer of the server. *)
Lemma delete_answer (connection : Connection) (s : state) response w :
  send (delete_request connection (self s)) (world s) = (response, w) →
  delete connection s
  = if negb (py_in (status_code response) [200; 204])
       && negb (status_code response =? 404)%Z
    then (Raise (UnexpectedManagementAPIResponse (text response)),
          exchanged s (self s) w [delete_request connection (self s)])
    else
      match _config (self s) !! "template-id" with
      | Some _ =>
          let after :=
            {| _config := base.delete "template-id" (_config (self s));
               etag := etag (self s) |} in
          (Ret after,
           exchanged s after w [delete_request connection (self s)])
      | None =>
          (Raise (KeyError "template-id"),
           exchanged s (self s) w [delete_request connection (self s)])
      end.
Proof.
  intros Hsend. unfold delete. rewrite bind_get_self.
  unfold delete_request in Hsend. rewrite (bind_requests _ _ _ _ _ Hsend).
  destruct (negb (py_in (status_code response) [200; 204])
            && negb (status_code response =? 404)%Z); [done|].
  rewrite bind_get_self. simpl. unfold delitem.
  by destruct (_config (self s) !! "template-id").
Qed.

(** X12. [delete] cannot be repeated.  After a [delete] that returned,
    the template has no id; a second [delete] still sends its request, for
    the id [None], and never returns: on 200, 204 and 404 it raises
    [KeyError], on any other status the error with the body. *)
Theorem delete_twice (connection : Connection) (s s1 : state)
  (after : Template) :
  delete connection s = (Ret after, s1) →
  self s1 = after
  ∧ template_id after = VNone
  ∧ ∀ response w,
      send (delete_request connection after) (world s1) = (response, w) →
      snd (delete connection s1)
      = exchanged s1 after w [delete_request connection after]
      ∧ (py_in (status_code response) [200; 204; 404] = true →
         fst (delete connection s1) = Raise (KeyError "template-id"))
      ∧ (py_in (status_code response) [200; 204; 404] = false →
         fst (delete connection s1)
         = Raise (UnexpectedManagementAPIResponse (text response))).
Proof.
  intros Hfirst.
  destruct (send (delete_request connection (self s)) (world s))
    as [response0 w0] eqn:Hsend0.
  rewrite (delete_answer _ _ _ _ Hsend0) in Hfirst.
  destruct (negb (py_in (status_code response0) [200; 204])
            && negb (status_code response0 =? 404)%Z); [done|].
  destruct (_config (self s) !! "template-id") eqn:Hid0; [|done].
  injection Hfirst as <- <-.
  assert (base.delete "template-id" (_config (self s)) !! "template-id"
          = None) as Hgone by apply lookup_delete_eq.
  split; [done|]. split.
  { unfold template_id, field. cbn [_config]. by rewrite Hgone. }
  intros response w Hsend.
  match goal with
  | |- context [delete connection ?st] =>
      rewrite (delete_answer connection st response w Hsend)
  end.
  cbn [self exchanged _config]. rewrite Hgone.
  unfold py_in. simpl. rewrite !orb_false_r.
  destruct (status_code response =? 200)%Z,
           (status_code response =? 204)%Z,
           (status_code response =? 404)%Z; simpl; by repeat split.
Qed.






End operations.

End template_extras.

(* ===================================================================== *)
(** * More of the command line front end: usage tests and rewritings *)
(* ===================================================================== *)

Module mma_extras.
Import Py mma mma_properties.

#[local] Open Scope list_scope.

(** The three selections of a command line share out its tokens. *)
Lemma select_shares_out (argv : list string) :
  ∀ after,
    let ks := kinds after argv in
    select an_option ks argv ++ select a_positional ks argv
      ++ select a_param ks argv ≡ₚ argv.
Proof.
  induction argv as [|tok rest IH]; intros after; [done|].
  simpl. destruct after; simpl.
  - apply perm_skip, IH.
  - destruct (own_kind tok); simpl.
    + apply perm_skip, IH.
    + etrans; [|apply perm_skip, (IH (announces tok))].
      rewrite !app_assoc. symmetry. apply Permutation_middle.
    + etrans; [|apply perm_skip, (IH (announces tok))].
      symmetry. apply Permutation_middle.
Qed.

(** A token selected as positional, or as a parameter, was sorted by its
    own text. *)
Lemma select_own_kind (k : kind) (argv : list string) :
  k ≠ an_option →
  ∀ after, Forall (λ tok, own_kind tok = k)
                  (select k (kinds after argv) argv).
Proof.
  intros Hk. induction argv as [|tok rest IH]; intros after; [done|].
  simpl. destruct after; simpl.
  - rewrite bool_decide_eq_false_2 by done. apply IH.
  - case_bool_decide; [|apply IH]. constructor; [done|apply IH].
Qed.

(** A selected token is a token of the command line. *)
Lemma select_elem_of (k : kind) (argv : list string) :
  ∀ after tok, tok ∈ select k (kinds after argv) argv → tok ∈ argv.
Proof.
  induction argv as [|first rest IH]; intros after tok; [done|].
  simpl. destruct after; simpl; case_bool_decide;
    rewrite ?elem_of_cons; intros Hin;
    try (destruct Hin as [->|Hin]; [by left|]); right; by eapply IH.
Qed.

Lemma own_kind_positional (tok : string) :
  own_kind tok = a_positional →
  startswith tok "-" = false ∧ contains "=" tok = false.
Proof.
  unfold own_kind. by destruct (startswith tok "-"), (contains "=" tok).
Qed.

Lemma own_kind_param (tok : string) :
  own_kind tok = a_param →
  startswith tok "-" = false ∧ contains "=" tok = true.
Proof.
  unfold own_kind. by destruct (startswith tok "-"), (contains "=" tok).
Qed.

Lemma scan_lists (argv : list string) :
  let ks := kinds false argv in
  options (scan argv) = select an_option ks argv
  ∧ positional (scan argv) = select a_positional ks argv
  ∧ params (scan argv) = select a_param ks argv.
Proof.
  exact (scan_from argv
           {| options := []; params := []; positional := [];
              optarg := false |}).
Qed.

(** X14. The loop of [run] loses no token and makes none up: the three
    lists together are a rearrangement of the command line.  No positional
    word and no parameter begins with ['-']; every parameter contains ['=']
    and no positional word does. *)
Theorem scan_shares_out_tokens (argv : list string) :
  options (scan argv) ++ positional (scan argv) ++ params (scan argv)
    ≡ₚ argv
  ∧ Forall (λ tok, startswith tok "-" = false ∧ contains "=" tok = false)
           (positional (scan argv))
  ∧ Forall (λ tok, startswith tok "-" = false ∧ contains "=" tok = true)
           (params (scan argv)).
Proof.
  destruct (scan_lists argv) as (-> & -> & ->).
  split; [apply select_shares_out|]. split.
  - eapply Forall_impl; [by apply select_own_kind|].
    intros tok. apply own_kind_positional.
  - eapply Forall_impl; [by apply select_own_kind|].
    intros tok. apply own_kind_param.
Qed.

Section dispatch.
Context {parser : Type}.
Variable command_template : string → option (gmap string (@entry parser)).

(** X15. [run] exits with status 1, before any parser is chosen, when no
    token of the command line is a plain word, each beginning with ['-'] or
    containing ['='] (the empty command line among them), and when the only
    positional word is not a command without artifact; it exits with
    status 1 as well when the command is not in the command table. *)
Theorem run_usage_exits (argv : list string) :
  (Forall (λ tok, startswith tok "-" = true ∨ contains "=" tok = true) argv →
   run command_template argv = Raise (SystemExit 1))
  ∧ (∀ command,
       positional (scan argv) = [command] →
       command ∉ empty_artifact_commands →
       run command_template argv = Raise (SystemExit 1))
  ∧ (∀ line,
       rebuild (scan argv) = Ret line →
       command_template (command line) = None →
       run command_template argv = Raise (SystemExit 1)).
Proof.
  unfold run. split; [|split].
  - intros Hnone.
    assert (positional (scan argv) = []) as Hnil;
      [|unfold rebuild; by rewrite Hnil].
    destruct (scan_lists argv) as (_ & -> & _).
    pose proof (select_own_kind a_positional argv ltac:(done) false) as Hown.
    pose proof (select_elem_of a_positional argv false) as Hsub.
    destruct (select a_positional (kinds false argv) argv) as [|tok toks];
      [done|].
    apply Forall_cons in Hown as [[Hdash Heq]%own_kind_positional _].
    rewrite Forall_forall in Hnone.
    destruct (Hnone tok) as [Hyes|Hyes]; [apply Hsub; by left| |];
      congruence.
  - intros command Hone Hnot. unfold rebuild. rewrite Hone. simpl.
    by rewrite bool_decide_eq_false_2.
  - intros line -> Hunknown. simpl. unfold select_parser.
    by rewrite Hunknown.
Qed.

(** X16. A server type as the last of two positional words, as in
    [list http], ends [run] in [IndexError]: the rewriting reads a third
    positional word that is not there. *)
Theorem run_server_type_needs_third (argv : list string)
  (command stype : string) :
  positional (scan argv) = [command; stype] →
  stype ∈ server_types →
  run command_template argv = Raise IndexError.
Proof.
  intros Htwo Hserver. unfold run, rebuild. rewrite Htwo. simpl.
  by rewrite bool_decide_eq_true_2.
Qed.

End dispatch.

(** The artifact that stands for a server type. *)
Lemma server_artifact_is_no_type (command : string) :
  (if (command =? "list")%string then "servers" else "server") ∉ server_types.
Proof.
  unfold server_types.
  destruct (command =? "list")%string; rewrite !elem_of_cons, elem_of_nil;
    intros Hin; by repeat destruct Hin as [Hin|Hin].
Qed.

(** X17. A server type in the place of the artifact is shorthand: with
    [http], [xdbc], [odbc] or [webdav] as second positional word and a third
    one after it, [run] goes on as for the command line that has ['--type']
    and the server type at the end of its options and the artifact
    ['servers'] (after [list]) or ['server'] in its place, once. *)
Theorem rebuild_server_type (st : tokens) (command stype third : string)
  (rest : list string) :
  positional st = command :: stype :: third :: rest →
  stype ∈ server_types →
  let art := if (command =? "list")%string then "servers" else "server" in
  let words := command :: art
               :: (if (third =? art)%string then rest else third :: rest) in
  rebuild st
  = Ret {| command := command; artifact := Some art;
           argv := (options st ++ ["--type"; stype]) ++ words ++ params st |}
  ∧ rebuild st
    = rebuild {| options := options st ++ ["--type"; stype];
                 params := params st; positional := words;
                 optarg := optarg st |}.
Proof.
  intros Hwords Hserver art words.
  assert (rebuild st
          = Ret {| command := command; artifact := Some art;
                   argv := (options st ++ ["--type"; stype]) ++ words
                           ++ params st |}) as Hrebuild.
  { unfold rebuild. rewrite Hwords. simpl.
    rewrite bool_decide_eq_true_2 by done. simpl. fold art.
    subst words. by destruct (third =? art)%string. }
  split; [exact Hrebuild|]. rewrite Hrebuild.
  unfold rebuild. subst words. simpl.
  rewrite bool_decide_eq_false_2 by apply server_artifact_is_no_type.
  done.
Qed.

(** X18. [stop] without an artifact stands for [stop host]: with ['stop']
    as the only positional word, [run] goes on as for the command line
    with the positional words ['stop'] and ['host']. *)
Theorem rebuild_stop (st : tokens) :
  positional st = ["stop"] →
  rebuild st
  = Ret {| command := "stop"; artifact := Some "host";
           argv := options st ++ ["stop"; "host"] ++ params st |}
  ∧ rebuild st
    = rebuild {| options := options st; params := params st;
                 positional := ["stop"; "host"]; optarg := optarg st |}.
Proof.
  intros Hstop. unfold rebuild. rewrite Hstop. by vm_compute.
Qed.

(** One turn of the loop, case by case. *)
Lemma scan_token_waiting (st : tokens) (tok : string) :
  optarg st = true →
  scan_token st tok
  = {| options := options st ++ [tok]; params := params st;
       positional := positional st; optarg := false |}.
Proof. intros Hst. unfold scan_token. by rewrite Hst. Qed.

Lemma scan_token_dash (st : tokens) (tok : string) :
  optarg st = false → startswith tok "-" = true →
  scan_token st tok
  = {| options := options st ++ [tok]; params := params st;
       positional := positional st; optarg := announces tok |}.
Proof.
  intros Hst Hdash. unfold scan_token, announces. rewrite Hst, Hdash.
  by destruct (tok =? "--debug")%string.
Qed.

Lemma scan_token_param (st : tokens) (tok : string) :
  optarg st = false → own_kind tok = a_param →
  scan_token st tok
  = {| options := options st; params := params st ++ [tok];
       positional := positional st; optarg := false |}.
Proof.
  intros Hst [Hdash Heq]%own_kind_param. unfold scan_token.
  by rewrite Hst, Hdash, Heq.
Qed.

Lemma scan_token_positional (st : tokens) (tok : string) :
  optarg st = false → own_kind tok = a_positional →
  scan_token st tok
  = {| options := options st; params := params st;
       positional := positional st ++ [tok]; optarg := false |}.
Proof.
  intros Hst [Hdash Heq]%own_kind_positional. unfold scan_token.
  by rewrite Hst, Hdash, Heq.
Qed.

Lemma own_kind_option (tok : string) :
  own_kind tok = an_option → startswith tok "-" = true.
Proof.
  unfold own_kind. by destruct (startswith tok "-"), (contains "=" tok).
Qed.

Lemma announces_needs_dash (tok : string) :
  own_kind tok ≠ an_option → announces tok = false.
Proof.
  unfold own_kind, announces. by destruct (startswith tok "-").
Qed.

(** The options of a command line, scanned on their own, are sorted as
    they were among the other tokens. *)
Lemma replay_options (argv : list string) :
  ∀ st st2 : tokens,
    optarg st2 = optarg st →
    fold_left scan_token (select an_option (kinds (optarg st) argv) argv) st2
    = {| options := options st2
                    ++ select an_option (kinds (optarg st) argv) argv;
         params := params st2;
         positional := positional st2;
         optarg := optarg (fold_left scan_token argv st) |}.
Proof.
  induction argv as [|tok rest IH]; intros st st2 Hsame.
  - simpl. rewrite app_nil_r, <- Hsame. by destruct st2.
  - destruct (optarg st) eqn:Hflag.
    + simpl. rewrite scan_token_waiting, (scan_token_waiting st) by done.
      etrans; [exact (IH {| options := options st ++ [tok];
                            params := params st;
                            positional := positional st;
                            optarg := false |}
                         {| options := options st2 ++ [tok];
                            params := params st2;
                            positional := positional st2;
                            optarg := false |} eq_refl)|].
      simpl. by rewrite <- app_assoc.
    + simpl. destruct (own_kind tok) eqn:Hkind; simpl.
      * apply own_kind_option in Hkind.
        rewrite scan_token_dash, (scan_token_dash st) by done.
        etrans; [exact (IH {| options := options st ++ [tok];
                              params := params st;
                              positional := positional st;
                              optarg := announces tok |}
                           {| options := options st2 ++ [tok];
                              params := params st2;
                              positional := positional st2;
                              optarg := announces tok |} eq_refl)|].
        simpl. by rewrite <- app_assoc.
      * rewrite (scan_token_param st), announces_needs_dash
          by (done || by rewrite Hkind).
        exact (IH {| options := options st; params := params st ++ [tok];
                     positional := positional st; optarg := false |}
                  st2 Hsame).
      * rewrite (scan_token_positional st), announces_needs_dash
          by (done || by rewrite Hkind).
        exact (IH {| options := options st; params := params st;
                     positional := positional st ++ [tok]; optarg := false |}
                  st2 Hsame).
Qed.

Lemma scan_positional_words (toks : list string) :
  Forall (λ tok, own_kind tok = a_positional) toks →
  ∀ st : tokens, optarg st = false →
    fold_left scan_token toks st
    = {| options := options st; params := params st;
         positional := positional st ++ toks; optarg := false |}.
Proof.
  induction 1 as [|tok toks Htok _ IH]; intros st Hst.
  - simpl. rewrite app_nil_r, <- Hst. by destruct st.
  - simpl. rewrite scan_token_positional, IH by done.
    simpl. by rewrite <- app_assoc.
Qed.

Lemma scan_params (toks : list string) :
  Forall (λ tok, own_kind tok = a_param) toks →
  ∀ st : tokens, optarg st = false →
    fold_left scan_token toks st
    = {| options := options st; params := params st ++ toks;
         positional := positional st; optarg := false |}.
Proof.
  induction 1 as [|tok toks Htok _ IH]; intros st Hst.
  - simpl. rewrite app_nil_r, <- Hst. by destruct st.
  - simpl. rewrite scan_token_param, IH by done.
    simpl. by rewrite <- app_assoc.
Qed.

(** X19. The token list that [run] rebuilds is in normal form: when the
    command line does not end on a flag that still waits for its argument,
    scanning options, positional words and parameters in that order gives
    the three lists again, so a rebuilt command line is dispatched as the
    original one. *)
Theorem scan_normal_form {parser : Type}
  (command_template : string → option (gmap string (@entry parser)))
  (argv : list string) :
  optarg (scan argv) = false →
  scan (options (scan argv) ++ positional (scan argv) ++ params (scan argv))
  = scan argv
  ∧ run command_template
      (options (scan argv) ++ positional (scan argv) ++ params (scan argv))
    = run command_template argv.
Proof.
  intros Hdone.
  assert (scan (options (scan argv) ++ positional (scan argv)
                ++ params (scan argv)) = scan argv) as Hscan.
  { destruct (scan_lists argv) as (Ho & Hp & Hq).
    pose proof (replay_options argv
                  {| options := []; params := []; positional := [];
                     optarg := false |}
                  {| options := []; params := []; positional := [];
                     optarg := false |} eq_refl) as Hreplay.
    simpl in Hreplay. fold (scan argv) in Hreplay.
    rewrite Hdone in Hreplay.
    destruct (scan argv) as [os ps qs flag]. simpl in *. subst.
    unfold scan. rewrite !fold_left_app, Hreplay.
    rewrite (scan_positional_words
               (select a_positional (kinds false argv) argv));
      [|by apply select_own_kind|done].
    rewrite (scan_params (select a_param (kinds false argv) argv));
      [|by apply select_own_kind|done].
    done. }
  split; [exact Hscan|]. unfold run. by rewrite Hscan.
Qed.

End mma_extras.

(* ===================================================================== *)
(** * The added properties at concrete runs *)
(* ===================================================================== *)

Module extras_runs.
Import Py validators template stated wire examples more_examples.
Import template_properties template_extras.

#[local] Existing Instance second_environment.
#[local] Open Scope list_scope.

(** X2 at a run: the saved template of the examples. *)
Lemma marshal_returns_iff_invariant_witness :
  "key-type" ≠ "req"
  ∧ marshal saved = Ret (flattened (_config saved))
  ∧ flattened (_config saved) !! "key-type" = Some (VStr "rsa").
Proof.
  destruct (marshal_returns_iff_invariant saved)
    as (Hmarshal & _ & Hother & _).
  split; [done|]. split; [exact Hmarshal|].
  by rewrite (Hother "key-type").
Defined.

(** X3 at a run: the entries of the saved template in insertion order. *)
Lemma marshal_in_insertion_order_witness :
  NoDup saved_entries.*1
  ∧ marshal_in_order saved_entries
    = marshal {| _config := list_to_map saved_entries; etag := VNone |}.
Proof.
  assert (NoDup saved_entries.*1) as Hkeys.
  { apply (bool_decide_unpack _). by vm_compute. }
  split; [exact Hkeys|].
  exact (proj1 (marshal_in_insertion_order saved_entries VNone Hkeys)).
Defined.

(** X5 at a run: a pass phrase set on a template without options. *)
Lemma option_setters_then_accessors_witness :
  options_are_dict unsaved = true
  ∧ ∃ after, set_pass_phrase (VStr "secret") unsaved = Ret after
             ∧ pass_phrase after = Ret (VStr "secret").
Proof.
  split; [reflexivity|].
  destruct (option_setters_then_accessors (VStr "secret") unsaved eq_refl)
    as [(after & Hset & Hread & _) _].
  by exists after.
Defined.

(** X6 at a run: a 200 answer with the properties of a saved template. *)
Lemma lookup_finds_or_None_witness :
  send (lookup_request localhost (VInt 7)) (world lookup_run)
  = (answer 200 full_properties_text, [])
  ∧ status_code (answer 200 full_properties_text) = 200
  ∧ json_loads (text (answer 200 full_properties_text))
    = Some (VDict full_properties)
  ∧ ∃ found, fst (lookup localhost (VInt 7) lookup_run) = Ret (Some found)
             ∧ marshal found = Ret full_properties.
Proof.
  repeat (split; [reflexivity|]).
  destruct (lookup_finds_or_None localhost (VInt 7) lookup_run
              (answer 200 full_properties_text) [] eq_refl)
    as (_ & Hfound & _).
  destruct (Hfound eq_refl full_properties eq_refl)
    as (found & Hlookup & _ & _ & Hmarshal).
  by exists found.
Defined.

(** X7 at a run: a saved template and a 404 answer. *)
Lemma read_never_returns_witness :
  is_not_None (template_id (self read_run)) = true
  ∧ send (lookup_request localhost (template_id (self read_run)))
         (world read_run) = (answer 404 "", [])
  ∧ status_code (answer 404 "") = 404
  ∧ fst (read localhost read_run) = Raise (NameError "auth").
Proof.
  repeat (split; [reflexivity|]).
  destruct (read_never_returns localhost read_run) as (_ & _ & Hsaved).
  destruct (Hsaved eq_refl (answer 404 "") [] eq_refl) as (_ & Hnone & _).
  exact (Hnone eq_refl).
Defined.

(** X9 at a run: [delete] on a template that was never saved raises. *)
Lemma create_delete_change_only_on_return_witness :
  returns (fst (delete localhost (begin unsaved [answer 404 ""]))) = false
  ∧ self (snd (delete localhost (begin unsaved [answer 404 ""]))) = unsaved.
Proof.
  split; [reflexivity|].
  destruct (create_delete_change_only_on_return localhost
              (begin unsaved [answer 404 ""])) as (_ & Hdelete & _).
  exact (Hdelete eq_refl).
Defined.

(** X10 at a run: a 201 answer without a location. *)
Lemma create_after_success_may_raise_witness :
  marshal (self create_run_no_location) = Ret (flattened (_config unsaved))
  ∧ send (create_post localhost (flattened (_config unsaved)))
         (world create_run_no_location) = (answer 201 "", [])
  ∧ py_in (status_code (answer 201 "")) [200; 201; 204] = true
  ∧ headers (answer 201 "") !! "location" = None
  ∧ fst (create localhost create_run_no_location)
    = Raise (KeyError "location").
Proof.
  split; [exact (marshal_flattens unsaved eq_refl)|].
  repeat (split; [reflexivity|]).
  destruct (create_after_success_may_raise localhost create_run_no_location
              (flattened (_config unsaved)) (answer 201 "") []
              (marshal_flattens unsaved eq_refl) eq_refl eq_refl)
    as [Hnone _].
  by rewrite (Hnone eq_refl).
Defined.

(** X11 at a run: the template that [lookup] hands back, updated. *)
Lemma update_after_unmarshal_witness :
  unmarshal full_properties = Ret (self update_run_fetched)
  ∧ full_properties !! "template-id" = Some (VInt 7)
  ∧ full_properties !! "template-version" = Some (VInt 0)
  ∧ send (update_request localhost (self update_run_fetched))
         (world update_run_fetched) = (answer 200 "", [])
  ∧ update_payload (self update_run_fetched)
    = base.delete "template-id"
        (base.delete "template-version" full_properties)
  ∧ returns (fst (update localhost update_run_fetched)) = true.
Proof.
  do 4 (split; [reflexivity|]).
  destruct (update_after_unmarshal localhost update_run_fetched
              full_properties (VInt 7) (VInt 0) (answer 200 "") []
              eq_refl eq_refl eq_refl eq_refl)
    as (Hpayload & _ & Hreturns).
  split; [exact Hpayload|]. by rewrite Hreturns.
Defined.

(** X12 at a run: two deletes, answered 204 and 404. *)
Lemma delete_twice_witness :
  delete localhost delete_twice_run = (Ret deleted, after_first_delete)
  ∧ send (delete_request localhost deleted) (world after_first_delete)
    = (answer 404 "", [])
  ∧ py_in (status_code (answer 404 "")) [200; 204; 404] = true
  ∧ fst (delete localhost after_first_delete)
    = Raise (KeyError "template-id").
Proof.
  assert (delete localhost delete_twice_run = (Ret deleted, after_first_delete))
    as Hfirst by (by vm_compute).
  split; [exact Hfirst|]. split; [reflexivity|]. split; [reflexivity|].
  destruct (delete_twice localhost delete_twice_run after_first_delete
              deleted Hfirst) as (_ & _ & Hsecond).
  destruct (Hsecond (answer 404 "") [] eq_refl) as (_ & Hkey & _).
  exact (Hkey eq_refl).
Defined.


End extras_runs.

Module mma_extras_runs.
Import Py mma mma_properties mma_extras.

#[local] Open Scope list_scope.

(** X15 at a run: a command line with a flag and nothing else. *)
Lemma run_usage_exits_witness :
  Forall (λ tok, startswith tok "-" = true ∨ contains "=" tok = true)
         ["--debug"; "name=Documents"]
  ∧ run examples.one_command ["--debug"; "name=Documents"]
    = Raise (SystemExit 1).
Proof.
  assert (Forall (λ tok, startswith tok "-" = true ∨ contains "=" tok = true)
                 ["--debug"; "name=Documents"]) as Hnone.
  { apply Forall_cons. split; [by left|].
    apply Forall_cons. split; [by right|]. apply Forall_nil_2. }
  split; [exact Hnone|].
  destruct (run_usage_exits examples.one_command
              ["--debug"; "name=Documents"]) as [Hexit _].
  exact (Hexit Hnone).
Defined.

(** X16 at a run: [list http]. *)
Lemma run_server_type_needs_third_witness :
  positional (scan ["list"; "http"]) = ["list"; "http"]
  ∧ "http" ∈ server_types
  ∧ run examples.one_command ["list"; "http"] = Raise IndexError.
Proof.
  assert ("http" ∈ server_types) as Hhttp by (by left).
  split; [reflexivity|]. split; [exact Hhttp|].
  exact (run_server_type_needs_third examples.one_command ["list"; "http"]
           "list" "http" eq_refl Hhttp).
Defined.

(** X17 at a run: [list http servers --debug]. *)
Lemma rebuild_server_type_witness :
  positional (scan ["list"; "http"; "servers"; "--debug"])
  = ["list"; "http"; "servers"]
  ∧ "http" ∈ server_types
  ∧ rebuild (scan ["list"; "http"; "servers"; "--debug"])
    = Ret {| command := "list"; artifact := Some "servers";
             argv := ["--debug"; "--type"; "http"; "list"; "servers"] |}.
Proof.
  assert ("http" ∈ server_types) as Hhttp by (by left).
  split; [reflexivity|]. split; [exact Hhttp|].
  destruct (rebuild_server_type (scan ["list"; "http"; "servers"; "--debug"])
              "list" "http" "servers" [] eq_refl Hhttp) as [Hrebuild _].
  exact Hrebuild.
Defined.

(** X18 at a run: [stop --debug]. *)
Lemma rebuild_stop_witness :
  positional (scan ["stop"; "--debug"]) = ["stop"]
  ∧ rebuild (scan ["stop"; "--debug"])
    = Ret {| command := "stop"; artifact := Some "host";
             argv := ["--debug"; "stop"; "host"] |}.
Proof.
  split; [reflexivity|].
  destruct (rebuild_stop (scan ["stop"; "--debug"]) eq_refl) as [Hrebuild _].
  exact Hrebuild.
Defined.

(** X19 at a run: [list --hostname localhost databases name=Documents]. *)
Lemma scan_normal_form_witness :
  optarg (scan ["list"; "--hostname"; "localhost"; "databases";
                "name=Documents"]) = false
  ∧ scan ["--hostname"; "localhost"; "list"; "databases"; "name=Documents"]
    = scan ["list"; "--hostname"; "localhost"; "databases";
            "name=Documents"].
Proof.
  split; [reflexivity|].
  destruct (scan_normal_form examples.one_command
              ["list"; "--hostname"; "localhost"; "databases";
               "name=Documents"] eq_refl) as [Hscan _].
  exact Hscan.
Defined.

End mma_extras_runs.
